(** * Climate-Crop: crop-health scoring, NASA-POWER normalisation and
      linear temperature projection

    Shallow embedding of the computational core of two Streamlit scripts:

    - [Most_Definitly_Not_My_Crop.py]: [process_weather_data],
      [analyze_rice_crop_health] (two-factor score, "Policy A") and
      [predict_future_temperatures] (30-day linear projection);
    - [No_Name.py]: [fetch_nasa_power_data] (the normaliser of date-keyed
      payloads), [calculate_rice_crop_health_score] with its inner
      [calculate_parameter_score] (four-factor score, "Policy B"), and the
      data path of [main].

    Modelling conventions.

    - Python numbers are exact rationals ([Q]); decimal literals such as
      [0.35] denote the rational they spell.  Binary64 rounding is not
      modelled there, so numeric statements over [Q] are statements of
      exact arithmetic and equalities between scores are [Qeq].
    - Where rounding decides how two scores compare,
      [calculate_parameter_score] is also embedded over IEEE 754 binary64
      ([Binary64], on primitive floats).
    - A pandas [Timestamp] at midnight is a day number ([Z]); adding
      [Timedelta(days=i)] adds [i].
    - Python dictionaries and pandas rows are [gmap string _]; [d[k]] raises
      [KeyError] when the key is absent, [d.get(k, None)] does not.
    - Exceptions are values of [exn] carried by [result]; a [try/except]
      becomes a [match] on the result.
    - Calls to [st.write] / [st.error] are collected, in order, in a list of
      [st_call]; network access is an input ([http_reply]). *)

From Stdlib Require Import ZArith QArith Qabs Qminmax Lqa Lia List String Bool.
From Stdlib Require PrimFloat.
From stdpp Require Import base option list gmap strings.
Import ListNotations.

(** ** Python runtime: exceptions and results *)

Module Py.

Inductive exn : Type :=
| KeyError (key : string)
| TypeError
| ValueError
| ZeroDivisionError.

Inductive result (A : Type) : Type :=
| Ok (a : A)
| Raise (e : exn).
Arguments Ok {A} a.
Arguments Raise {A} e.

#[global] Instance result_ret : MRet result := fun A a => Ok a.
#[global] Instance result_bind : MBind result := fun A B f m =>
  match m with
  | Ok a => f a
  | Raise e => Raise e
  end.

(** [d[k]] on a dictionary. *)
Definition getitem {V : Type} (d : gmap string V) (k : string) : result V :=
  match d !! k with
  | Some v => Ok v
  | None => Raise (KeyError k)
  end.

(** A timestamp at midnight, as a day number. *)
Definition datetime : Type := Z.

(** [x < y] on numbers. *)
Definition Qltb (x y : Q) : bool := negb (Qle_bool y x).

(** [sum] of a numeric column. *)
Definition Qsum (l : list Q) : Q := fold_right Qplus 0%Q l.

(** [range(a, a + n)] as integers. *)
Definition range (a : Z) (n : nat) : list Z :=
  map (fun i => (a + Z.of_nat i)%Z) (seq 0 n).

(** [Series.min()] / [Series.max()] of a column of day numbers; [None]
    stands for [NaT] on an empty column. *)
Definition Series_min (l : list Z) : option Z :=
  match l with
  | [] => None
  | d :: ds => Some (fold_right Z.min d ds)
  end.

Definition Series_max (l : list Z) : option Z :=
  match l with
  | [] => None
  | d :: ds => Some (fold_right Z.max d ds)
  end.

End Py.
Import Py.

(** ** datetime.strptime on zero-padded keys

    A parser of the eight-digit keys [YYYYMMDD] with a valid calendar date,
    returning the proleptic Gregorian ordinal of the day.  It is the
    instance of [strptime] used in the examples; the normaliser itself is
    stated for any parser. *)

Module Strptime.

Definition digit (a : Ascii.ascii) : option Z :=
  let n := Z.of_nat (Ascii.nat_of_ascii a) in
  if ((48 <=? n) && (n <=? 57))%Z then Some (n - 48)%Z else None.

Definition is_leap (y : Z) : bool :=
  ((y mod 4 =? 0) && (negb (y mod 100 =? 0) || (y mod 400 =? 0)))%Z.

Definition days_in_month (y m : Z) : Z :=
  if (m =? 2)%Z then (if is_leap y then 29 else 28)%Z
  else if ((m =? 4) || (m =? 6) || (m =? 9) || (m =? 11))%Z then 30%Z
  else 31%Z.

(** Days of the months [1 .. m - 1] of year [y]. *)
Fixpoint days_before_month (y : Z) (m : nat) : Z :=
  match m with
  | O => 0%Z
  | S O => 0%Z
  | S m' => (days_before_month y m' + days_in_month y (Z.of_nat m'))%Z
  end.

Definition days_before_year (y : Z) : Z :=
  let y1 := (y - 1)%Z in
  (y1 * 365 + y1 / 4 - y1 / 100 + y1 / 400)%Z.

Definition toordinal (y m d : Z) : Z :=
  (days_before_year y + days_before_month y (Z.to_nat m) + d)%Z.

Definition Ymd (s : string) : option datetime :=
  match list_ascii_of_string s with
  | [y1; y2; y3; y4; m1; m2; d1; d2] =>
      y1 ← digit y1; y2 ← digit y2; y3 ← digit y3; y4 ← digit y4;
      m1 ← digit m1; m2 ← digit m2; d1 ← digit d1; d2 ← digit d2;
      let y := (y1 * 1000 + y2 * 100 + y3 * 10 + y4)%Z in
      let m := (m1 * 10 + m2)%Z in
      let d := (d1 * 10 + d2)%Z in
      if ((1 <=? y) && (1 <=? m) && (m <=? 12)
          && (1 <=? d) && (d <=? days_in_month y m))%Z
      then Some (toordinal y m d)
      else None
  | _ => None
  end.

End Strptime.

(** ** Streamlit calls made by the scripts *)

Module St.

Inductive message : Type :=
| Requesting_URL
| Debug_Available_parameters (keys : list string)
| HTTP_Error (status_code : Z)
| Response_Content
| JSON_Decode_Error
| Unexpected_data_structure
| Received_data
| Error_processing_date (date : string)
| No_valid_data_could_be_processed
| Request_Error
| Error_calculating_crop_health_score (e : exn)
| No_valid_crop_health_scores_could_be_calculated
| No_data_could_be_retrieved_from_NASA_POWER_API.

Inductive st_call : Type :=
| write (m : message)
| error (m : message).

End St.

(** ** sklearn.linear_model.LinearRegression

    The estimator is library code.  It is modelled by what its documentation
    states: ordinary least squares with an intercept, on one feature.  The
    features and the targets are centred on their means; the coefficient is
    the least-squares solution of the centred problem, which is the
    minimum-norm solution [0] when the centred feature column is zero (a
    single sample, or samples sharing one feature value).  [fit] raises
    [ValueError] on an empty sample or on columns of different lengths. *)

Module LinearRegression.
Local Open Scope Q_scope.

Record t : Type := { coef_ : Q; intercept_ : Q }.

Definition mean (l : list Q) : Q := Qsum l / inject_Z (Z.of_nat (length l)).

(** The two sums of the centred problem. *)
Definition sxx (X : list Q) (X_offset : Q) : Q :=
  Qsum (map (fun x => (x - X_offset) * (x - X_offset)) X).

Definition sxy (X y : list Q) (X_offset y_offset : Q) : Q :=
  Qsum (map (fun p => (fst p - X_offset) * (snd p - y_offset))
            (combine X y)).

Definition fit (X y : list Q) : result t :=
  if (negb (length X =? length y)%nat || (length X =? 0)%nat)%bool
  then Raise ValueError
  else
    let X_offset := mean X in
    let y_offset := mean y in
    let coef :=
      if Qeq_bool (sxx X X_offset) 0 then 0
      else sxy X y X_offset y_offset / sxx X X_offset in
    Ok {| coef_ := coef; intercept_ := y_offset - X_offset * coef |}.

(** The sum of squared residuals of the line [a * x + b]. *)
Definition squared_error (X y : list Q) (a b : Q) : Q :=
  Qsum (map (fun p => (snd p - (fst p * a + b)) * (snd p - (fst p * a + b)))
            (combine X y)).

Definition predict (model : t) (X : list Q) : list Q :=
  map (fun x => x * coef_ model + intercept_ model) X.

End LinearRegression.

(** ** Most_Definitly_Not_My_Crop.py *)

Module MostDefinitlyNotMyCrop.
Local Open Scope Q_scope.

(** One row of [weather_df]. *)
Record weather_row : Type := {
  date : datetime;
  max_temperature : Q;
  min_temperature : Q;
  rainfall : Q;
  avg_temperature : Q
}.

(** One row of [future_df]. *)
Record future_row : Type := {
  future_date : datetime;
  predicted_avg_temperature : Q
}.

(** [process_weather_data]: the four parallel arrays of [data["daily"]],
    with the dates already parsed by [pd.to_datetime].  [pd.DataFrame]
    raises [ValueError] when the arrays differ in length. *)
Definition process_weather_data
    (dates : list datetime) (max_temps min_temps rainfall : list Q)
    : result (list weather_row) :=
  if ((length max_temps =? length dates)%nat
      && (length min_temps =? length dates)%nat
      && (length rainfall =? length dates)%nat)%bool
  then
    Ok (map (fun '(d, (tmax, (tmin, rain))) =>
               {| date := d; max_temperature := tmax;
                  min_temperature := tmin; rainfall := rain;
                  avg_temperature := (tmax + tmin) / 2 |})
            (combine dates (combine max_temps (combine min_temps rainfall))))
  else Raise ValueError.

(** The locals [temp_score] and [rain_score] of
    [analyze_rice_crop_health]. *)
Definition temp_score (temperature : Q) : Q :=
  Qmax 0 (100 - Qabs (temperature - 25) * 3).

Definition rain_score (rainfall : Q) : Q :=
  Qmax 0 (100 - Qabs (rainfall - 125) * 0.8).

(** [analyze_rice_crop_health] (Policy A). *)
Definition analyze_rice_crop_health (temperature rainfall : Q) : Q :=
  let crop_health_score :=
    temp_score temperature * 0.6 + rain_score rainfall * 0.4 in
  crop_health_score.

(** The column [df['days']]: whole days since the earliest date.  On an
    empty frame [date.min()] is [NaT] (here: a default no row uses). *)
Definition days (df : list weather_row) : list Z :=
  let date_min := default 0%Z (Series_min (map date df)) in
  map (fun r => (date r - date_min)%Z) df.

(** [model] after [model.fit(X, y)]. *)
Definition fitted_model (df : list weather_row) : result LinearRegression.t :=
  let X := map inject_Z (days df) in
  let y := map avg_temperature df in
  LinearRegression.fit X y.

(** [predict_future_temperatures]. *)
Definition predict_future_temperatures (df : list weather_row)
    : result (list future_row) :=
  model ← fitted_model df;
  let date_max := default 0%Z (Series_max (map date df)) in
  let days_max := default 0%Z (Series_max (days df)) in
  let future_days := range (days_max + 1) 30 in
  let future_dates := map (fun i => (date_max + i)%Z) (range 1 30) in
  let future_temps :=
    LinearRegression.predict model (map inject_Z future_days) in
  Ok (map (fun '(d, t) =>
             {| future_date := d; predicted_avg_temperature := t |})
          (combine future_dates future_temps)).

End MostDefinitlyNotMyCrop.

(** ** No_Name.py *)

Module NoName.
Local Open Scope Q_scope.
Import St.

(** A cell of a pandas row: [None]/[NaN], a number, or a timestamp. *)
Inductive cell : Type :=
| CNone
| CNum (q : Q)
| CDate (d : datetime).

(** [pd.isna] on a cell. *)
Definition isna (c : cell) : bool :=
  match c with
  | CNone => true
  | _ => false
  end.

(** A JSON value of a date record: a number or [null]. *)
Definition json_value : Type := option Q.

(** [data['properties']['parameter']] in shape (a): date string to a
    dictionary of parameter values, in the order of [.items()]. *)
Definition parameter_dict : Type :=
  list (string * gmap string json_value).

Record json_properties : Type := {
  parameter : option parameter_dict      (* [None]: key absent *)
}.

Record json_data : Type := {
  properties : option json_properties    (* [None]: key absent *)
}.

(** What [requests.get] followed by [response.json()] produces. *)
Inductive http_reply : Type :=
| RequestException
| Response (status_code : Z) (json : option json_data).
    (* [json = None]: [JSONDecodeError] *)

(** [values.get(key, None)]. *)
Definition get (values : gmap string json_value) (key : string) : cell :=
  match values !! key with
  | Some (Some q) => CNum q
  | Some None => CNone
  | None => CNone
  end.

(** [df.dropna()]: keep the rows without a missing cell. *)
Definition dropna (df : list (gmap string cell)) : list (gmap string cell) :=
  filter (map_Forall (fun _ c => isna c = false)) df.

(** [df.empty]. *)
Definition empty (df : list (gmap string cell)) : bool :=
  match df with
  | [] => true
  | _ => false
  end.

(** The [parameters] requested from the provider. *)
Definition parameters : list string :=
  ["T2M"; "RH2M"; "PRECTOTCORR"; "ALLSKY_SFC_SW_DWN"]%string.

(** The columns filled from them. *)
Definition parameter_columns : list string :=
  ["temperature"; "humidity"; "precipitation"; "solar_radiation"]%string.

(** The dictionary appended to [processed_data] for one date. *)
Definition daily_record (d : datetime) (values : gmap string json_value)
    : gmap string cell :=
  {[ "date" := CDate d;
     "temperature" := get values "T2M";
     "humidity" := get values "RH2M";
     "precipitation" := get values "PRECTOTCORR";
     "solar_radiation" := get values "ALLSKY_SFC_SW_DWN" ]}.

(** A reply with status 200 whose JSON has [properties] and [parameter]:
    a structurally valid payload. *)
Definition valid_reply (items : parameter_dict) : http_reply :=
  Response 200
    (Some {| properties := Some {| parameter := Some items |} |}).

(** A date record carries a value for each of the [parameters]. *)
Definition has_all_values (values : gmap string json_value) : bool :=
  forallb (fun key => negb (isna (get values key))) parameters.

Section Normaliser.

(** [datetime.strptime(_, "%Y%m%d")] is library code, taken as a
    parameter; [None] stands for the [ValueError] it raises. *)
Variable strptime : string -> option datetime.

(** A usable date record: its key parses and no value is missing. *)
Definition usable (item : string * gmap string json_value) : bool :=
  match strptime (fst item) with
  | Some _ => has_all_values (snd item)
  | None => false
  end.

(** The [for date, values in ....items()] loop: the [st.error] calls it
    makes and the [processed_data] it builds. *)
Fixpoint process_items (items : parameter_dict)
    : list st_call * list (gmap string cell) :=
  match items with
  | [] => ([], [])
  | (date, values) :: rest =>
      let '(log, processed_data) := process_items rest in
      match strptime date with
      | Some d => (log, daily_record d values :: processed_data)
      | None => (error (Error_processing_date date) :: log, processed_data)
      end
  end.

(** [fetch_nasa_power_data], from the reply of the provider on: the
    [st] calls made and the value returned. *)
Definition fetch_nasa_power_data (reply : http_reply)
    : list st_call * option (list (gmap string cell)) :=
  match reply with
  | RequestException =>
      ([write Requesting_URL; error Request_Error], None)
  | Response status_code json =>
      if negb (status_code =? 200)%Z then
        ([write Requesting_URL; error (HTTP_Error status_code);
          error Response_Content], None)
      else
        match json with
        | None =>
            ([write Requesting_URL; error JSON_Decode_Error;
              error Response_Content], None)
        | Some data =>
            match properties data ≫= parameter with
            | None =>
                ([write Requesting_URL; error Unexpected_data_structure;
                  error Received_data], None)
            | Some items =>
                let '(log, processed_data) := process_items items in
                let df := dropna processed_data in
                let log :=
                  write Requesting_URL
                  :: write (Debug_Available_parameters (map fst items))
                  :: log in
                if empty df
                then (log ++ [error No_valid_data_could_be_processed], None)
                else (log, Some df)
            end
        end
  end.

End Normaliser.

(** The entries of [conditions]. *)
Record param_conditions : Type := {
  min_ : Q;
  max_ : Q;
  ideal : Q
}.

Definition conditions : gmap string param_conditions :=
  {[ "temperature" := {| min_ := 20; max_ := 35; ideal := 25 |};
     "humidity" := {| min_ := 60; max_ := 80; ideal := 70 |};
     "precipitation" := {| min_ := 100; max_ := 200; ideal := 150 |};
     "solar_radiation" := {| min_ := 4; max_ := 6; ideal := 5 |} ]}.

(** [conditions.items()]. *)
Definition conditions_items : list (string * param_conditions) :=
  [ ("temperature"%string, {| min_ := 20; max_ := 35; ideal := 25 |});
    ("humidity"%string, {| min_ := 60; max_ := 80; ideal := 70 |});
    ("precipitation"%string, {| min_ := 100; max_ := 200; ideal := 150 |});
    ("solar_radiation"%string, {| min_ := 4; max_ := 6; ideal := 5 |}) ].

(** The test [value is None] of [calculate_parameter_score]. *)
Definition is_None (value : cell) : bool :=
  match value with
  | CNone => true
  | _ => false
  end.

(** The test [value < min or value > max] of [calculate_parameter_score]. *)
Definition outside_band (value : Q) (pc : param_conditions) : bool :=
  (Qltb value (min_ pc) || Qltb (max_ pc) value)%bool.

(** The inner helper [calculate_parameter_score].  Comparing a timestamp
    with a number raises [TypeError]; dividing by a zero [max_distance]
    raises [ZeroDivisionError]. *)
Definition calculate_parameter_score
    (value : cell) (param_conditions : param_conditions) : result Q :=
  if is_None value then Ok 0
  else
    match value with
    | CNum value =>
        if outside_band value param_conditions
        then Ok (Qmax 0 (100 - Qabs (value - ideal param_conditions) * 5))
        else
          let distance_from_ideal :=
            Qabs (value - ideal param_conditions) in
          let max_distance :=
            Qmax (Qabs (min_ param_conditions - ideal param_conditions))
                 (Qabs (max_ param_conditions - ideal param_conditions)) in
          if Qeq_bool max_distance 0 then Raise ZeroDivisionError
          else
            let score :=
              100 * (1 - (distance_from_ideal / max_distance) ^ 2) in
            Ok (Qmax 0 score)
    | _ => Raise TypeError
    end.

(** One entry of the [scores] dictionary: the score of [value] under
    [conditions[name]]. *)
Definition parameter_score (name : string) (value : cell) : result Q :=
  param_conditions ← getitem conditions name;
  calculate_parameter_score value param_conditions.

(** The body of the [try] block of [calculate_rice_crop_health_score]. *)
Definition crop_health_score (row : gmap string cell) : result Q :=
  v_temperature ← getitem row "temperature";
  c_temperature ← getitem conditions "temperature";
  s_temperature ← calculate_parameter_score v_temperature c_temperature;
  v_humidity ← getitem row "humidity";
  c_humidity ← getitem conditions "humidity";
  s_humidity ← calculate_parameter_score v_humidity c_humidity;
  v_precipitation ← getitem row "precipitation";
  c_precipitation ← getitem conditions "precipitation";
  s_precipitation ← calculate_parameter_score v_precipitation c_precipitation;
  v_solar_radiation ← getitem row "solar_radiation";
  c_solar_radiation ← getitem conditions "solar_radiation";
  s_solar_radiation ←
    calculate_parameter_score v_solar_radiation c_solar_radiation;
  Ok (s_temperature * 0.35
      + s_precipitation * 0.3
      + s_humidity * 0.2
      + s_solar_radiation * 0.15).

(** [calculate_rice_crop_health_score]: the [st.error] calls made and the
    value returned ([None] from the [except] branch). *)
Definition calculate_rice_crop_health_score (row : gmap string cell)
    : list st_call * option Q :=
  match crop_health_score row with
  | Ok score => ([], Some score)
  | Raise e => ([error (Error_calculating_crop_health_score e)], None)
  end.

(** The data path of [main]: fetch, score every row, drop the rows whose
    score is [None]; charts and metrics are not modelled.  The value is the
    scored frame handed to the charts, [None] when [main] stops on an
    [st.error]. *)
Definition main (strptime : string -> option datetime) (reply : http_reply)
    : list st_call * option (list (gmap string cell)) :=
  let '(log, rice_data) := fetch_nasa_power_data strptime reply in
  match rice_data with
  | Some rice_data =>
      if negb (empty rice_data) then
        let applied := map calculate_rice_crop_health_score rice_data in
        let scored :=
          map (fun '(row, (_, score)) =>
                 <["crop_health_score" := from_option CNum CNone score]> row)
              (combine rice_data applied) in
        let rice_data :=
          filter (fun row =>
                    from_option isna true (row !! "crop_health_score") = false)
                 scored in
        let log := log ++ concat (map fst applied) in
        if empty rice_data
        then (log ++ [error No_valid_crop_health_scores_could_be_calculated],
              None)
        else (log, Some rice_data)
      else (log ++ [error No_data_could_be_retrieved_from_NASA_POWER_API],
            None)
  | None =>
      (log ++ [error No_data_could_be_retrieved_from_NASA_POWER_API], None)
  end.

End NoName.


(** ** Sample inputs *)

Module Samples.
Import MostDefinitlyNotMyCrop NoName.
Local Open Scope Q_scope.

(** Date records of a NASA-POWER style payload. *)
Definition complete_values : gmap string json_value :=
  {[ "T2M" := Some 27.5; "RH2M" := Some 72;
     "PRECTOTCORR" := Some 3.2; "ALLSKY_SFC_SW_DWN" := Some 5.4 ]}.

Definition values_without_T2M : gmap string json_value :=
  {[ "RH2M" := Some 70; "PRECTOTCORR" := Some 150;
     "ALLSKY_SFC_SW_DWN" := Some 5 ]}.

Definition values_with_null_RH2M : gmap string json_value :=
  {[ "T2M" := Some 25; "RH2M" := None; "PRECTOTCORR" := Some 150;
     "ALLSKY_SFC_SW_DWN" := Some 5 ]}.

(** Rows handed to the Policy B scorer. *)
Definition ideal_row : gmap string cell :=
  {[ "date" := CDate 738886%Z; "temperature" := CNum 25;
     "humidity" := CNum 70; "precipitation" := CNum 150;
     "solar_radiation" := CNum 5 ]}.

Definition hot_dry_row : gmap string cell :=
  {[ "date" := CDate 738887%Z; "temperature" := CNum 41.5;
     "humidity" := CNum 35; "precipitation" := CNum 0;
     "solar_radiation" := CNum 7.1 ]}.

Definition row_without_humidity : gmap string cell :=
  {[ "date" := CDate 738888%Z; "temperature" := CNum 28;
     "humidity" := CNone; "precipitation" := CNum 120;
     "solar_radiation" := CNum 5.5 ]}.

(** Frames handed to the trend projection. *)
Definition weather (d : datetime) (tmax tmin rain : Q) : weather_row :=
  {| date := d; max_temperature := tmax; min_temperature := tmin;
     rainfall := rain; avg_temperature := (tmax + tmin) / 2 |}.

Definition three_linear_days : list weather_row :=
  [ weather 738886%Z 12 8 0; weather 738887%Z 15 9 4; weather 738888%Z 16 12 1 ].

Definition one_day : list weather_row := [ weather 738886%Z 12 8 0 ].

End Samples.

(** ** pandas reductions *)

Module Pandas.
Local Open Scope Q_scope.

(** [Series.mean()] of a numeric column without missing values; only
    applied to non-empty columns. *)
Definition Series_mean (l : list Q) : Q :=
  Qsum l / inject_Z (Z.of_nat (length l)).

(** The mask [(date >= start_date) & (date <= end_date)]. *)
Definition in_range (start_date end_date d : datetime) : bool :=
  ((start_date <=? d) && (d <=? end_date))%Z.

End Pandas.

(** ** Most_Definitly_Not_My_Crop.py: the data path of [main] *)

Module MostDefinitlyNotMyCropMain.
Import MostDefinitlyNotMyCrop Pandas.
Local Open Scope Q_scope.

(** [weather_data["daily"]]: the four arrays read by
    [process_weather_data]. *)
Record daily_arrays : Type := {
  time : list datetime;
  temperature_2m_max : list Q;
  temperature_2m_min : list Q;
  precipitation_sum : list Q
}.

(** What [main] computes for the page when the filtered frame is not
    empty. *)
Record dashboard : Type := {
  avg_temp : Q;
  total_rainfall : Q;
  rice_crop_health : Q;
  future_temps_df : list future_row;
  health_over_time : list Q
}.

Inductive page : Type :=
| Nothing_shown                 (* [weather_data] is [None] *)
| No_data_for_the_range         (* the [st.warning] branch *)
| Dashboard (d : dashboard).

(** [weather_df[(date >= start_date) & (date <= end_date)]]. *)
Definition filter_by_date (weather_df : list weather_row)
    (start_date end_date : datetime) : list weather_row :=
  List.filter (fun r => in_range start_date end_date (date r)) weather_df.

(** The data path of [main]: [weather_data] is what [fetch_weather_data]
    returned, [start_date] and [end_date] are what the two [st.date_input]
    widgets returned.  Charts are not modelled; an exception of
    [process_weather_data] or [predict_future_temperatures] is not caught. *)
Definition main (weather_data : option daily_arrays)
    (start_date end_date : datetime) : result page :=
  match weather_data with
  | None => Ok Nothing_shown
  | Some data =>
      weather_df ← process_weather_data (time data)
                     (temperature_2m_max data) (temperature_2m_min data)
                     (precipitation_sum data);
      let filtered_df := filter_by_date weather_df start_date end_date in
      match filtered_df with
      | [] => Ok No_data_for_the_range
      | _ =>
          let avg_temp := Series_mean (map avg_temperature filtered_df) in
          let total_rainfall := Qsum (map rainfall filtered_df) in
          let rice_crop_health :=
            analyze_rice_crop_health avg_temp total_rainfall in
          future_temps_df ← predict_future_temperatures weather_df;
          Ok (Dashboard
                {| avg_temp := avg_temp;
                   total_rainfall := total_rainfall;
                   rice_crop_health := rice_crop_health;
                   future_temps_df := future_temps_df;
                   health_over_time :=
                     map (fun t => analyze_rice_crop_health t total_rainfall)
                         (map avg_temperature filtered_df) |})
      end
  end.

End MostDefinitlyNotMyCropMain.

(** ** Not_My_App.py *)

Module NotMyApp.
Local Open Scope Q_scope.

(** The line feed of the f-string. *)
Definition newline : string := String (Ascii.ascii_of_nat 10) EmptyString.

(** [analyze_crop_impact]. *)
Definition analyze_crop_impact (avg_temp total_rainfall : Q) : string :=
  let rain_effect :=
    if Qltb total_rainfall 50 then
      "Low rainfall, irrigation needed."%string
    else if (Qle_bool 50 total_rainfall && Qle_bool total_rainfall 150)%bool
    then "Optimal rainfall for most crops."%string
    else "Excess rainfall, risk of waterlogging."%string in
  let temp_effect :=
    if Qltb avg_temp 20 then
      "Low temperature, slow growth likely."%string
    else if (Qle_bool 20 avg_temp && Qle_bool avg_temp 30)%bool
    then "Optimal temperature for growth."%string
    else "High temperature, risk of heat stress."%string in
  String.append "Rainfall impact: "
    (String.append rain_effect
       (String.append newline
          (String.append "Temperature impact: " temp_effect))).

End NotMyApp.

(** ** The same frame some days later *)

Module Shifted.
Import MostDefinitlyNotMyCrop.

(** Every date of a weather frame moved by [k] days. *)
Definition later (k : Z) (df : list weather_row) : list weather_row :=
  map (fun r => {| date := (date r + k)%Z;
                   max_temperature := max_temperature r;
                   min_temperature := min_temperature r;
                   rainfall := rainfall r;
                   avg_temperature := avg_temperature r |}) df.

(** Every date of a projection moved by [k] days. *)
Definition later_future (k : Z) (future_df : list future_row)
    : list future_row :=
  map (fun r => {| future_date := (future_date r + k)%Z;
                   predicted_avg_temperature :=
                     predicted_avg_temperature r |}) future_df.

End Shifted.

(** ** More sample inputs *)

Module MoreSamples.
Import MostDefinitlyNotMyCrop MostDefinitlyNotMyCropMain NoName Samples.
Local Open Scope Q_scope.

(** A payload in the provider's own layout: parameter name, then date. *)
Definition by_parameter_items : parameter_dict :=
  [ ("T2M"%string, {[ "20240101" := Some 25.3; "20240102" := Some 26.1 ]});
    ("RH2M"%string, {[ "20240101" := Some 71; "20240102" := Some 69.5 ]}) ].

(** A payload keyed by date, one of whose records lacks a value. *)
Definition by_date_items : parameter_dict :=
  [ ("20240101"%string, complete_values);
    ("20240102"%string, values_with_null_RH2M) ].

(** Three days of Open-Meteo arrays. *)
Definition three_days : daily_arrays :=
  {| time := [738886; 738887; 738888]%Z;
     temperature_2m_max := [12; 15; 16];
     temperature_2m_min := [8; 9; 12];
     precipitation_sum := [0; 4; 1] |}.

Definition no_dashboard : dashboard :=
  {| avg_temp := 0; total_rainfall := 0; rice_crop_health := 0;
     future_temps_df := []; health_over_time := [] |}.

(** The page of [three_days] for a range of dates. *)
Definition dashboard_of (start_date end_date : datetime) : dashboard :=
  match MostDefinitlyNotMyCropMain.main (Some three_days)
          start_date end_date with
  | Ok (Dashboard d) => d
  | _ => no_dashboard
  end.

Definition first_two_days : dashboard :=
  Eval vm_compute in dashboard_of 738886%Z 738887%Z.

Definition last_day : dashboard :=
  Eval vm_compute in dashboard_of 738888%Z 738888%Z.

(** Two days at the same average temperature. *)
Definition two_even_days : list weather_row :=
  [ weather 738886%Z 12 8 0; weather 738887%Z 11 9 2 ].

(** The model fitted on [three_linear_days]. *)
Definition three_linear_days_model : LinearRegression.t :=
  Eval vm_compute in
    match fitted_model three_linear_days with
    | Ok model => model
    | Raise _ => {| LinearRegression.coef_ := 0;
                    LinearRegression.intercept_ := 0 |}
    end.

End MoreSamples.

(** ** No_Name.py: [calculate_parameter_score] in binary64

    A Python [float] is an IEEE 754 binary64 number, and so is a primitive
    float.  This module embeds [calculate_parameter_score] on [None] and on
    floats, one rounded operation per Python operation.  The integers of
    [conditions] are exact in binary64.  [x ** 2] is the product [x * x]
    rounded once; the sample values below give the same scores when the
    last bit of the power differs. *)

Module Binary64.
Import Py PrimFloat.
Local Open Scope float_scope.

(** The entries of [conditions]. *)
Record param_conditions : Type := {
  min_ : float;
  max_ : float;
  ideal : float
}.

(** [conditions['temperature']]. *)
Definition temperature : param_conditions :=
  {| min_ := 20; max_ := 35; ideal := 25 |}.

(** Python's [max(a, b)]: [b] when [b > a], otherwise [a]. *)
Definition max (a b : float) : float := if ltb a b then b else a.

(** The test [value < min or value > max]. *)
Definition outside_band (value : float) (pc : param_conditions) : bool :=
  (ltb value (min_ pc) || ltb (max_ pc) value)%bool.

(** [distance_from_ideal]. *)
Definition distance_from_ideal (value : float) (pc : param_conditions)
    : float :=
  abs (value - ideal pc).

(** The inner helper [calculate_parameter_score]; [None] is Python's
    [None]. *)
Definition calculate_parameter_score
    (value : option float) (param_conditions : param_conditions)
    : result float :=
  match value with
  | None => Ok 0
  | Some value =>
      if outside_band value param_conditions
      then Ok (max 0 (100 - abs (value - ideal param_conditions) * 5))
      else
        let distance_from_ideal :=
          distance_from_ideal value param_conditions in
        let max_distance :=
          max (abs (min_ param_conditions - ideal param_conditions))
              (abs (max_ param_conditions - ideal param_conditions)) in
        if eqb max_distance 0 then Raise ZeroDivisionError
        else
          let quotient := distance_from_ideal / max_distance in
          let score := 100 * (1 - quotient * quotient) in
          Ok (max 0 score)
  end.



End Binary64.

(** * Properties *)

Import MostDefinitlyNotMyCrop NoName St.

(** ** Arithmetic of scores *)

Section ScoreArithmetic.
Local Open Scope Q_scope.

Lemma Qltb_true (x y : Q) : Qltb x y = true <-> x < y.
Proof.
  unfold Qltb. rewrite negb_true_iff.
  destruct (Qle_bool y x) eqn:E.
  - apply Qle_bool_iff in E. split; [discriminate | intros H; exfalso; lra].
  - split; [intros _ | reflexivity].
    destruct (Qlt_le_dec x y) as [H | H]; [exact H |].
    apply Qle_bool_iff in H. congruence.
Qed.

Lemma Qltb_false (x y : Q) : Qltb x y = false <-> y <= x.
Proof.
  unfold Qltb. rewrite negb_false_iff. apply Qle_bool_iff.
Qed.

Lemma Qeq_bool_false (x y : Q) : Qeq_bool x y = false <-> ~ x == y.
Proof.
  split.
  - intros E H. apply Qeq_bool_iff in H. congruence.
  - intros H. destruct (Qeq_bool x y) eqn:E; [| reflexivity].
    apply Qeq_bool_iff in E. contradiction.
Qed.

Lemma Qsquare (x : Q) : x ^ 2 == x * x.
Proof. reflexivity. Qed.

Lemma Qsquare_nonneg (x : Q) : 0 <= x ^ 2.
Proof. rewrite Qsquare. nra. Qed.


(** The clamp [max(0, s)] of a value that is at most [100]. *)
Lemma clamp_bounds (s : Q) : s <= 100 -> 0 <= Qmax 0 s <= 100.
Proof.
  intros Hs. split.
  - apply Q.le_max_l.
  - apply Q.max_lub; lra.
Qed.

(** A linear penalty [max(0, 100 - |v - ideal| * rate)]. *)
Lemma linear_penalty_bounds (v ideal rate : Q) :
  0 <= rate -> 0 <= Qmax 0 (100 - Qabs (v - ideal) * rate) <= 100.
Proof.
  intros Hr. apply clamp_bounds.
  pose proof (Qabs_nonneg (v - ideal)) as Ha. nra.
Qed.


End ScoreArithmetic.

(** ** Policy A: [analyze_rice_crop_health] *)

Section PolicyA.
Local Open Scope Q_scope.

Lemma temp_score_bounds (temperature : Q) :
  0 <= temp_score temperature <= 100.
Proof. apply linear_penalty_bounds. lra. Qed.

Lemma rain_score_bounds (rainfall : Q) :
  0 <= rain_score rainfall <= 100.
Proof. apply linear_penalty_bounds. lra. Qed.

Lemma analyze_rice_crop_health_bounds (temperature rainfall : Q) :
  0 <= analyze_rice_crop_health temperature rainfall <= 100.
Proof.
  unfold analyze_rice_crop_health.
  pose proof (temp_score_bounds temperature).
  pose proof (rain_score_bounds rainfall).
  lra.
Qed.

End PolicyA.

(** ** Policy B: [calculate_parameter_score] *)

Section PolicyB.
Local Open Scope Q_scope.

Lemma conditions_lookup (name : string) (pc : param_conditions) :
  conditions !! name = Some pc <-> In (name, pc) conditions_items.
Proof.
  unfold conditions, conditions_items. split.
  - intros H.
    repeat (apply lookup_insert_Some in H as [[<- <-] | [_ H]];
            [simpl; tauto |]).
    apply lookup_singleton_Some in H as [<- <-]. simpl; tauto.
  - simpl. intros [H | [H | [H | [H | []]]]]; inversion H; reflexivity.
Qed.


Lemma outside_band_true (v : Q) (pc : param_conditions) :
  outside_band v pc = true <-> v < min_ pc \/ max_ pc < v.
Proof.
  unfold outside_band. rewrite orb_true_iff, !Qltb_true. tauto.
Qed.

Lemma Ok_inj {A : Type} (a b : A) : Ok a = Ok b -> a = b.
Proof. congruence. Qed.

(** The score of a parameter, when there is one, is in [[0,100]]. *)
Lemma calculate_parameter_score_bounds
    (value : cell) (pc : param_conditions) (s : Q) :
  calculate_parameter_score value pc = Ok s -> 0 <= s <= 100.
Proof.
  unfold calculate_parameter_score.
  destruct value as [| v | d]; [| | discriminate].
  - intros <-%Ok_inj. lra.
  - destruct (outside_band v pc).
    + intros <-%Ok_inj. apply linear_penalty_bounds. lra.
    + destruct (Qeq_bool _ 0); [discriminate |].
      intros <-%Ok_inj. apply clamp_bounds.
      match goal with |- context [ ?x ^ 2 ] =>
        pose proof (Qsquare_nonneg x) end.
      lra.
Qed.

(** A missing value scores [0], whatever the conditions. *)
Lemma calculate_parameter_score_None (pc : param_conditions) :
  calculate_parameter_score CNone pc = Ok 0.
Proof. reflexivity. Qed.

(** With the conditions of the script the division is defined: a number
    or a missing value always gets a score. *)
Lemma calculate_parameter_score_total
    (name : string) (pc : param_conditions) (value : cell) :
  conditions !! name = Some pc ->
  (forall d, value <> CDate d) ->
  exists s, calculate_parameter_score value pc = Ok s.
Proof.
  intros Hpc Hv. apply conditions_lookup in Hpc.
  destruct value as [| v | d]; [eexists; reflexivity | | now destruct (Hv d)].
  unfold calculate_parameter_score.
  destruct (outside_band v pc);
    [eexists; reflexivity |].
  simpl in Hpc.
  destruct Hpc as [H | [H | [H | [H | []]]]]; inversion H; subst; clear H;
    simpl; eexists; reflexivity.
Qed.


End PolicyB.

(** ** Policy B: [calculate_rice_crop_health_score] *)

Section PolicyBRow.
Local Open Scope Q_scope.

Lemma bind_Ok {A B : Type} (a : A) (f : A -> result B) : Ok a ≫= f = f a.
Proof. reflexivity. Qed.

Lemma getitem_Some {V : Type} (d : gmap string V) (k : string) (v : V) :
  d !! k = Some v -> getitem d k = Ok v.
Proof. unfold getitem. now intros ->. Qed.

Lemma getitem_conditions (name : string) (pc : param_conditions) :
  In (name, pc) conditions_items -> getitem conditions name = Ok pc.
Proof. intros H. apply getitem_Some, conditions_lookup, H. Qed.

Lemma parameter_score_bounds (name : string) (value : cell) (s : Q) :
  parameter_score name value = Ok s -> 0 <= s <= 100.
Proof.
  unfold parameter_score.
  destruct (getitem conditions name) as [pc | e]; [| discriminate].
  rewrite bind_Ok. apply calculate_parameter_score_bounds.
Qed.

Lemma parameter_score_total (name : string) (value : cell) :
  In name parameter_columns ->
  (forall d, value <> CDate d) ->
  exists s, parameter_score name value = Ok s.
Proof.
  intros Hn Hv.
  assert (exists pc, conditions !! name = Some pc) as [pc Hpc].
  { simpl in Hn. destruct Hn as [<- | [<- | [<- | [<- | []]]]];
      eexists; reflexivity. }
  unfold parameter_score. rewrite (getitem_Some _ _ _ Hpc), bind_Ok.
  eapply calculate_parameter_score_total; eassumption.
Qed.

Lemma parameter_score_None (name : string) (s : Q) :
  parameter_score name CNone = Ok s -> s = 0.
Proof.
  unfold parameter_score.
  destruct (getitem conditions name) as [pc | e]; [| discriminate].
  rewrite bind_Ok, calculate_parameter_score_None. now intros <-%Ok_inj.
Qed.

(** The [try] block in terms of the four entries of [scores]. *)
Lemma crop_health_score_unfold (row : gmap string cell) :
  crop_health_score row =
    (v_temperature ← getitem row "temperature";
     s_temperature ← parameter_score "temperature" v_temperature;
     v_humidity ← getitem row "humidity";
     s_humidity ← parameter_score "humidity" v_humidity;
     v_precipitation ← getitem row "precipitation";
     s_precipitation ← parameter_score "precipitation" v_precipitation;
     v_solar_radiation ← getitem row "solar_radiation";
     s_solar_radiation ← parameter_score "solar_radiation" v_solar_radiation;
     Ok (s_temperature * 0.35 + s_precipitation * 0.3
         + s_humidity * 0.2 + s_solar_radiation * 0.15)).
Proof.
  unfold crop_health_score, parameter_score.
  rewrite !(getitem_conditions _ _ ltac:(simpl; eauto 6)).
  reflexivity.
Qed.

(** When the four columns hold numbers or missing values, the [try] block
    returns the weighted sum of the four entries of [scores]. *)
Lemma crop_health_score_Ok (row : gmap string cell) (ct ch cp cs : cell) :
  row !! "temperature" = Some ct ->
  row !! "humidity" = Some ch ->
  row !! "precipitation" = Some cp ->
  row !! "solar_radiation" = Some cs ->
  (forall d, ct <> CDate d) -> (forall d, ch <> CDate d) ->
  (forall d, cp <> CDate d) -> (forall d, cs <> CDate d) ->
  exists st sh sp ss,
    parameter_score "temperature" ct = Ok st /\
    parameter_score "humidity" ch = Ok sh /\
    parameter_score "precipitation" cp = Ok sp /\
    parameter_score "solar_radiation" cs = Ok ss /\
    crop_health_score row =
      Ok (st * 0.35 + sp * 0.3 + sh * 0.2 + ss * 0.15).
Proof.
  intros Ht Hh Hp Hs Dt Dh Dp Ds.
  destruct (parameter_score_total "temperature" ct) as [st Est];
    [simpl; tauto | exact Dt |].
  destruct (parameter_score_total "humidity" ch) as [sh Esh];
    [simpl; tauto | exact Dh |].
  destruct (parameter_score_total "precipitation" cp) as [sp Esp];
    [simpl; tauto | exact Dp |].
  destruct (parameter_score_total "solar_radiation" cs) as [ss Ess];
    [simpl; tauto | exact Ds |].
  exists st, sh, sp, ss. repeat (split; [assumption |]).
  rewrite crop_health_score_unfold.
  rewrite (getitem_Some _ _ _ Ht), bind_Ok, Est, bind_Ok.
  rewrite (getitem_Some _ _ _ Hh), bind_Ok, Esh, bind_Ok.
  rewrite (getitem_Some _ _ _ Hp), bind_Ok, Esp, bind_Ok.
  rewrite (getitem_Some _ _ _ Hs), bind_Ok, Ess, bind_Ok.
  reflexivity.
Qed.

Lemma weighted_sum_bounds (st sh sp ss : Q) :
  0 <= st <= 100 -> 0 <= sh <= 100 -> 0 <= sp <= 100 -> 0 <= ss <= 100 ->
  0 <= st * 0.35 + sp * 0.3 + sh * 0.2 + ss * 0.15 <= 100.
Proof. intros. lra. Qed.

End PolicyBRow.

(** ** The scorers: bounds, known values, monotonicity, totality *)

Section Scorers.
Local Open Scope Q_scope.

Lemma calculate_rice_crop_health_score_Ok (row : gmap string cell) (v : Q) :
  crop_health_score row = Ok v ->
  calculate_rice_crop_health_score row = ([], Some v).
Proof. unfold calculate_rice_crop_health_score. now intros ->. Qed.

(** C1.  For all (finite) inputs both scores lie in [[0,100]]: Policy A's
    [analyze_rice_crop_health temperature rainfall] for every temperature
    and rainfall, and Policy B's [calculate_rice_crop_health_score row] for
    every row whose four parameter columns hold numbers; Policy B then
    returns a score and makes no [st.error] call. *)
Theorem score_within_0_100 :
  (forall temperature rainfall : Q,
      0 <= analyze_rice_crop_health temperature rainfall <= 100) /\
  (forall (row : gmap string cell) (t h p s : Q),
      row !! "temperature" = Some (CNum t) ->
      row !! "humidity" = Some (CNum h) ->
      row !! "precipitation" = Some (CNum p) ->
      row !! "solar_radiation" = Some (CNum s) ->
      exists v,
        calculate_rice_crop_health_score row = ([], Some v) /\
        0 <= v <= 100).
Proof.
  split; [exact analyze_rice_crop_health_bounds |].
  intros row t h p s Ht Hh Hp Hs.
  destruct (crop_health_score_Ok row _ _ _ _ Ht Hh Hp Hs)
    as (st & sh & sp & ss & Et & Eh & Ep & Es & E); try discriminate.
  eexists. split; [apply calculate_rice_crop_health_score_Ok, E |].
  apply weighted_sum_bounds; eapply parameter_score_bounds; eassumption.
Qed.

(** C3.  At the ideal values both policies score 100: Policy A at
    temperature 25 and rainfall 125 has [temp_score] 100, [rain_score] 100
    and a combined score of 100; Policy B at temperature 25, humidity 70,
    precipitation 150 and solar radiation 5 has the four per-parameter
    scores 100 and a combined score of 100. *)
Theorem ideal_values_score_100 :
  (temp_score 25 == 100 /\ rain_score 125 == 100 /\
   analyze_rice_crop_health 25 125 == 100) /\
  (exists st sh sp ss,
      parameter_score "temperature" (CNum 25) = Ok st /\ st == 100 /\
      parameter_score "humidity" (CNum 70) = Ok sh /\ sh == 100 /\
      parameter_score "precipitation" (CNum 150) = Ok sp /\ sp == 100 /\
      parameter_score "solar_radiation" (CNum 5) = Ok ss /\ ss == 100) /\
  (forall row : gmap string cell,
      row !! "temperature" = Some (CNum 25) ->
      row !! "humidity" = Some (CNum 70) ->
      row !! "precipitation" = Some (CNum 150) ->
      row !! "solar_radiation" = Some (CNum 5) ->
      exists v,
        calculate_rice_crop_health_score row = ([], Some v) /\ v == 100).
Proof.
  split; [repeat split; reflexivity |].
  assert (Et : exists st,
             parameter_score "temperature" (CNum 25) = Ok st /\ st == 100)
    by (eexists; split; vm_compute; reflexivity).
  assert (Eh : exists sh,
             parameter_score "humidity" (CNum 70) = Ok sh /\ sh == 100)
    by (eexists; split; vm_compute; reflexivity).
  assert (Ep : exists sp,
             parameter_score "precipitation" (CNum 150) = Ok sp /\ sp == 100)
    by (eexists; split; vm_compute; reflexivity).
  assert (Es : exists ss,
             parameter_score "solar_radiation" (CNum 5) = Ok ss /\ ss == 100)
    by (eexists; split; vm_compute; reflexivity).
  destruct Et as (st & Et & Qt), Eh as (sh & Eh & Qh),
           Ep as (sp & Ep & Qp), Es as (ss & Es & Qs).
  split; [exists st, sh, sp, ss; tauto |].
  intros row Ht Hh Hp Hs.
  destruct (crop_health_score_Ok row _ _ _ _ Ht Hh Hp Hs)
    as (st' & sh' & sp' & ss' & Et' & Eh' & Ep' & Es' & E);
    try discriminate.
  rewrite Et in Et'. rewrite Eh in Eh'. rewrite Ep in Ep'. rewrite Es in Es'.
  apply Ok_inj in Et', Eh', Ep', Es'. subst st' sh' sp' ss'.
  eexists. split; [apply calculate_rice_crop_health_score_Ok, E |].
  rewrite Qt, Qh, Qp, Qs. reflexivity.
Qed.


(** C7.  The scorers never fail.  Policy A is a total function into
    [[0,100]].  Policy B, on every row whose four parameter columns are
    present and hold a number or a missing value, returns a score (the
    [except] branch, with its [st.error] call and [None], is not taken);
    the score is the weighted sum of the four per-parameter scores, lies in
    [[0,100]], and a missing value contributes a per-parameter score of 0. *)
Theorem scorers_never_fail
    (row : gmap string cell) (ct ch cp cs : cell) :
  row !! "temperature" = Some ct ->
  row !! "humidity" = Some ch ->
  row !! "precipitation" = Some cp ->
  row !! "solar_radiation" = Some cs ->
  (forall d, ct <> CDate d) -> (forall d, ch <> CDate d) ->
  (forall d, cp <> CDate d) -> (forall d, cs <> CDate d) ->
  (forall temperature rainfall : Q,
      0 <= analyze_rice_crop_health temperature rainfall <= 100) /\
  exists st sh sp ss,
    parameter_score "temperature" ct = Ok st /\
    parameter_score "humidity" ch = Ok sh /\
    parameter_score "precipitation" cp = Ok sp /\
    parameter_score "solar_radiation" cs = Ok ss /\
    calculate_rice_crop_health_score row =
      ([], Some (st * 0.35 + sp * 0.3 + sh * 0.2 + ss * 0.15)) /\
    0 <= st * 0.35 + sp * 0.3 + sh * 0.2 + ss * 0.15 <= 100 /\
    (ct = CNone -> st = 0) /\ (ch = CNone -> sh = 0) /\
    (cp = CNone -> sp = 0) /\ (cs = CNone -> ss = 0).
Proof.
  intros Ht Hh Hp Hs Dt Dh Dp Ds.
  split; [exact analyze_rice_crop_health_bounds |].
  destruct (crop_health_score_Ok row _ _ _ _ Ht Hh Hp Hs Dt Dh Dp Ds)
    as (st & sh & sp & ss & Et & Eh & Ep & Es & E).
  exists st, sh, sp, ss. repeat (split; [assumption |]).
  split; [apply calculate_rice_crop_health_score_Ok, E |].
  split; [apply weighted_sum_bounds; eapply parameter_score_bounds;
          eassumption |].
  repeat split; intros ->; eapply parameter_score_None; eassumption.
Qed.

(** C9.  Across the edge of the band the per-parameter score is not
    monotone in the distance from the ideal.  For temperature, 35 is inside
    the band and scores 0, 36 is outside and farther from the ideal, yet
    scores 45; and every value between 35 (excluded) and 36 scores at least
    45, so the score jumps upward at the edge. *)
Theorem score_jumps_up_outside_band :
  exists pc s1 s2,
    conditions !! "temperature" = Some pc /\
    outside_band 35 pc = false /\ outside_band 36 pc = true /\
    Qabs (35 - ideal pc) < Qabs (36 - ideal pc) /\
    calculate_parameter_score (CNum 35) pc = Ok s1 /\ s1 == 0 /\
    calculate_parameter_score (CNum 36) pc = Ok s2 /\ s2 == 45 /\
    s1 < s2 /\
    (forall v, 35 < v -> v <= 36 ->
       exists s, calculate_parameter_score (CNum v) pc = Ok s /\ 45 <= s).
Proof.
  exists {| min_ := 20; max_ := 35; ideal := 25 |}.
  do 2 eexists.
  split; [reflexivity |]. split; [reflexivity |]. split; [reflexivity |].
  split; [reflexivity |]. split; [vm_compute; reflexivity |].
  split; [reflexivity |]. split; [vm_compute; reflexivity |].
  split; [reflexivity |]. split; [reflexivity |].
  intros v Hlo Hhi. unfold calculate_parameter_score.
  rewrite (proj2 (outside_band_true v _)) by (right; exact Hlo).
  eexists. split; [reflexivity |]. cbn [ideal].
  apply Qle_trans with (100 - Qabs (v - 25) * 5); [| apply Q.le_max_r].
  rewrite Qabs_pos by lra. lra.
Qed.

End Scorers.

(** ** The normaliser: [fetch_nasa_power_data] *)

Section NormaliserFacts.
Variable strptime : string -> option datetime.

Lemma get_cases (values : gmap string json_value) (key : string) :
  get values key = CNone \/ exists q, get values key = CNum q.
Proof.
  unfold get. destruct (values !! key) as [[q |] |]; eauto.
Qed.

Lemma has_all_values_true (values : gmap string json_value) :
  has_all_values values = true <->
  forall key, In key parameters -> isna (get values key) = false.
Proof.
  unfold has_all_values. rewrite forallb_forall.
  split; intros H key Hk; specialize (H key Hk);
    now destruct (isna (get values key)).
Qed.

(** The five columns of a record. *)
Lemma daily_record_lookup (d : datetime) (values : gmap string json_value)
    (column : string) (c : cell) :
  daily_record d values !! column = Some c <->
  (column = "date"%string /\ c = CDate d) \/
  (column = "temperature"%string /\ c = get values "T2M") \/
  (column = "humidity"%string /\ c = get values "RH2M") \/
  (column = "precipitation"%string /\ c = get values "PRECTOTCORR") \/
  (column = "solar_radiation"%string /\ c = get values "ALLSKY_SFC_SW_DWN").
Proof.
  unfold daily_record. split.
  - intros H.
    repeat (apply lookup_insert_Some in H as [[<- <-] | [_ H]]; [tauto |]).
    apply lookup_singleton_Some in H as [<- <-]. tauto.
  - intros [[-> ->] | [[-> ->] | [[-> ->] | [[-> ->] | [-> ->]]]]];
      reflexivity.
Qed.

(** [dropna] keeps a record exactly when it has all its values. *)
Lemma daily_record_kept (d : datetime) (values : gmap string json_value) :
  map_Forall (fun _ c => isna c = false) (daily_record d values) <->
  has_all_values values = true.
Proof.
  rewrite has_all_values_true. unfold parameters. split.
  - intros H key Hk. simpl in Hk.
    destruct Hk as [<- | [<- | [<- | [<- | []]]]].
    + apply (H "temperature"%string). apply daily_record_lookup. tauto.
    + apply (H "humidity"%string). apply daily_record_lookup. tauto.
    + apply (H "precipitation"%string). apply daily_record_lookup. tauto.
    + apply (H "solar_radiation"%string). apply daily_record_lookup. tauto.
  - intros H column c Hc. apply daily_record_lookup in Hc.
    destruct Hc as [[_ ->] | [[_ ->] | [[_ ->] | [[_ ->] | [_ ->]]]]];
      [reflexivity | apply H; simpl; tauto ..].
Qed.

(** Frames and logs of the loop. *)
Lemma process_items_cons (date : string) (values : gmap string json_value)
    (rest : parameter_dict) :
  process_items strptime ((date, values) :: rest) =
    match strptime date with
    | Some d =>
        (fst (process_items strptime rest),
         daily_record d values :: snd (process_items strptime rest))
    | None =>
        (error (Error_processing_date date)
           :: fst (process_items strptime rest),
         snd (process_items strptime rest))
    end.
Proof.
  simpl. destruct (process_items strptime rest) as [log rows].
  destruct (strptime date); reflexivity.
Qed.

(** What survives [dropna] after the loop: the records of the usable
    items, in order. *)
Lemma dropna_process_items_app (before after : parameter_dict) :
  dropna (snd (process_items strptime (before ++ after))) =
  dropna (snd (process_items strptime before))
    ++ dropna (snd (process_items strptime after)).
Proof.
  induction before as [| [date values] before IH]; [reflexivity |].
  rewrite <- app_comm_cons, !process_items_cons.
  destruct (strptime date) as [d |]; simpl; [| exact IH].
  unfold dropna in *. rewrite !filter_cons.
  destruct (decide _); simpl; [f_equal |]; exact IH.
Qed.

Lemma dropna_unusable (item : string * gmap string json_value) :
  usable strptime item = false ->
  dropna (snd (process_items strptime [item])) = [].
Proof.
  destruct item as [date values]. unfold usable. simpl.
  destruct (strptime date) as [d |]; [| reflexivity].
  intros H. simpl. unfold dropna. rewrite filter_cons_False; [reflexivity |].
  rewrite daily_record_kept. congruence.
Qed.

Lemma dropna_all_unusable (items : parameter_dict) :
  Forall (fun item => usable strptime item = false) items ->
  dropna (snd (process_items strptime items)) = [].
Proof.
  induction 1 as [| item items Hitem _ IH]; [reflexivity |].
  change (item :: items) with ([item] ++ items).
  rewrite dropna_process_items_app, (dropna_unusable _ Hitem). exact IH.
Qed.

Lemma dropna_all_usable (items : parameter_dict) :
  Forall (fun item => usable strptime item = true) items ->
  length (dropna (snd (process_items strptime items))) = length items.
Proof.
  induction 1 as [| [date values] items Hitem _ IH]; [reflexivity |].
  rewrite process_items_cons. unfold usable in Hitem. simpl in Hitem.
  destruct (strptime date) as [d |]; [| discriminate].
  simpl. unfold dropna in *. rewrite filter_cons_True.
  - simpl. now rewrite IH.
  - exact (proj2 (daily_record_kept d values) Hitem).
Qed.

(** The value returned on a structurally valid reply. *)
Lemma fetch_valid_reply (items : parameter_dict) :
  snd (fetch_nasa_power_data strptime (valid_reply items)) =
    match dropna (snd (process_items strptime items)) with
    | [] => None
    | df => Some df
    end.
Proof.
  unfold fetch_nasa_power_data, valid_reply. simpl.
  destruct (process_items strptime items) as [log rows]. simpl.
  destruct (dropna rows); reflexivity.
Qed.

(** Every row of a returned frame is a record that has all its values. *)
Lemma process_items_rows (items : parameter_dict) (row : gmap string cell) :
  In row (snd (process_items strptime items)) ->
  exists d values, row = daily_record d values.
Proof.
  induction items as [| [date values] items IH]; [intros [] |].
  rewrite process_items_cons.
  destruct (strptime date) as [d |]; simpl; [| exact IH].
  intros [<- | H]; [eauto | exact (IH H)].
Qed.

Lemma fetch_Some_rows (reply : http_reply) (log : list st_call)
    (df : list (gmap string cell)) (row : gmap string cell) :
  fetch_nasa_power_data strptime reply = (log, Some df) ->
  In row df ->
  exists d values,
    row = daily_record d values /\ has_all_values values = true.
Proof.
  unfold fetch_nasa_power_data.
  destruct reply as [| status_code [data |]]; try discriminate;
    destruct (negb _); try discriminate.
  destruct (properties data ≫= parameter) as [items |]; [| discriminate].
  pose proof (process_items_rows items) as Hrows.
  destruct (process_items strptime items) as [log' rows]. simpl in Hrows.
  destruct (empty (dropna rows)); [discriminate |].
  intros [= _ <-] Hin.
  apply list_elem_of_In, list_elem_of_filter in Hin as [Hkept Hin].
  apply list_elem_of_In, Hrows in Hin as (d & values & ->).
  exists d, values. split; [reflexivity |].
  exact (proj1 (daily_record_kept d values) Hkept).
Qed.

End NormaliserFacts.

(** ** The normaliser: required values, empty series, complete rows *)

Section NormaliserClaims.

Lemma main_fetch_None (strptime : string -> option datetime)
    (reply : http_reply) (log : list st_call) :
  fetch_nasa_power_data strptime reply = (log, None) ->
  main strptime reply =
    (log ++ [error No_data_could_be_retrieved_from_NASA_POWER_API], None).
Proof. unfold main. now intros ->. Qed.

(** C5, as amended.  In a payload of [N >= 2] date records of which
    exactly one lacks a parameter value, the normaliser drops that whole
    record: it returns a frame of exactly [N - 1] rows, the frame it returns
    for the payload without that record. *)
Theorem incomplete_record_dropped
    (strptime : string -> option datetime)
    (before after : parameter_dict)
    (item : string * gmap string json_value) :
  Forall (fun i => usable strptime i = true) before ->
  Forall (fun i => usable strptime i = true) after ->
  has_all_values (snd item) = false ->
  before ++ after <> [] ->
  exists df,
    snd (fetch_nasa_power_data strptime
           (valid_reply (before ++ item :: after))) = Some df /\
    length df = (length (before ++ item :: after) - 1)%nat /\
    snd (fetch_nasa_power_data strptime (valid_reply (before ++ after)))
      = Some df.
Proof.
  intros Hb Ha Hvalues Hne.
  assert (Hitem : usable strptime item = false).
  { unfold usable. destruct (strptime (fst item)); [exact Hvalues |].
    reflexivity. }
  assert (Hsame :
    dropna (snd (process_items strptime (before ++ item :: after))) =
    dropna (snd (process_items strptime (before ++ after)))).
  { change (item :: after) with ([item] ++ after).
    rewrite !dropna_process_items_app, (dropna_unusable _ _ Hitem).
    reflexivity. }
  assert (Hlen :
    length (dropna (snd (process_items strptime (before ++ after)))) =
    length (before ++ after)).
  { apply dropna_all_usable, Forall_app. split; assumption. }
  rewrite !fetch_valid_reply, Hsame.
  destruct (dropna (snd (process_items strptime (before ++ after))))
    as [| row df] eqn:E.
  - destruct (before ++ after); [contradiction | discriminate].
  - exists (row :: df). split; [reflexivity |]. split; [| reflexivity].
    rewrite Hlen, !length_app. simpl. lia.
Qed.

(** C6.  On a structurally valid payload none of whose records is usable,
    the normaliser reports "No valid data could be processed" and returns
    [None], not a frame; [main] then reports that no data could be
    retrieved and stops. *)
Theorem empty_series_returns_None
    (strptime : string -> option datetime) (items : parameter_dict) :
  Forall (fun i => usable strptime i = false) items ->
  exists log,
    fetch_nasa_power_data strptime (valid_reply items) =
      (log ++ [error No_valid_data_could_be_processed], None) /\
    main strptime (valid_reply items) =
      (log ++ [error No_valid_data_could_be_processed;
               error No_data_could_be_retrieved_from_NASA_POWER_API],
       None).
Proof.
  intros H. apply dropna_all_unusable in H.
  assert (exists log,
    fetch_nasa_power_data strptime (valid_reply items) =
      (log ++ [error No_valid_data_could_be_processed], None))
    as [log Hlog].
  { unfold fetch_nasa_power_data, valid_reply. simpl.
    destruct (process_items strptime items) as [log rows].
    simpl in H. rewrite H. simpl.
    exists (write Requesting_URL
            :: write (Debug_Available_parameters (map fst items)) :: log).
    reflexivity. }
  exists log. split; [exact Hlog |].
  rewrite (main_fetch_None _ _ _ Hlog), <- app_assoc. reflexivity.
Qed.

(** C10.  Every row of a frame returned by the normaliser holds a number
    in each of the four parameter columns: none of them is missing, so the
    test [value is None] of the scorer is false on each, and the scorer
    returns a score for the row. *)
Theorem normalised_rows_complete
    (strptime : string -> option datetime) (reply : http_reply)
    (log : list st_call) (df : list (gmap string cell))
    (row : gmap string cell) :
  fetch_nasa_power_data strptime reply = (log, Some df) ->
  In row df ->
  (forall column, In column parameter_columns ->
     exists q, row !! column = Some (CNum q)) /\
  (forall column value, In column parameter_columns ->
     row !! column = Some value -> is_None value = false) /\
  (exists v, calculate_rice_crop_health_score row = ([], Some v)).
Proof.
  intros Hfetch Hin.
  destruct (fetch_Some_rows _ _ _ _ _ Hfetch Hin) as (d & values & -> & Hall).
  assert (Hnum : forall column, In column parameter_columns ->
            exists q, daily_record d values !! column = Some (CNum q)).
  { rewrite has_all_values_true in Hall. unfold parameters in Hall.
    intros column Hc. simpl in Hc.
    destruct Hc as [<- | [<- | [<- | [<- | []]]]].
    - destruct (get_cases values "T2M") as [E | [q E]].
      + specialize (Hall "T2M"%string). rewrite E in Hall.
        discriminate Hall. simpl; tauto.
      + exists q. rewrite <- E. reflexivity.
    - destruct (get_cases values "RH2M") as [E | [q E]].
      + specialize (Hall "RH2M"%string). rewrite E in Hall.
        discriminate Hall. simpl; tauto.
      + exists q. rewrite <- E. reflexivity.
    - destruct (get_cases values "PRECTOTCORR") as [E | [q E]].
      + specialize (Hall "PRECTOTCORR"%string). rewrite E in Hall.
        discriminate Hall. simpl; tauto.
      + exists q. rewrite <- E. reflexivity.
    - destruct (get_cases values "ALLSKY_SFC_SW_DWN") as [E | [q E]].
      + specialize (Hall "ALLSKY_SFC_SW_DWN"%string). rewrite E in Hall.
        discriminate Hall. simpl; tauto.
      + exists q. rewrite <- E. reflexivity. }
  split; [exact Hnum |]. split.
  - intros column value Hc Hv. destruct (Hnum column Hc) as [q Hq].
    rewrite Hq in Hv. injection Hv as <-. reflexivity.
  - destruct (Hnum "temperature"%string) as [t Ht]; [simpl; tauto |].
    destruct (Hnum "humidity"%string) as [h Hh]; [simpl; tauto |].
    destruct (Hnum "precipitation"%string) as [p Hp]; [simpl; tauto |].
    destruct (Hnum "solar_radiation"%string) as [s Hs]; [simpl; tauto |].
    destruct (crop_health_score_Ok _ _ _ _ _ Ht Hh Hp Hs)
      as (st & sh & sp & ss & _ & _ & _ & _ & E); try discriminate.
    eexists. apply calculate_rice_crop_health_score_Ok, E.
Qed.

End NormaliserClaims.

(** ** The trend projection: thirty contiguous days *)

Section Projection.

Lemma Series_max_spec (l : list Z) (D : Z) :
  Series_max l = Some D -> In D l /\ Forall (fun d => (d <= D)%Z) l.
Proof.
  destruct l as [| d ds]; [discriminate |]. intros [= <-].
  induction ds as [| e ds [IHin IHle]]; simpl.
  - split; [tauto | repeat constructor; lia].
  - apply Forall_cons in IHle as [Hd Hds].
    destruct (Z.max_spec e (fold_right Z.max d ds)) as [[Hlt ->] | [Hle ->]].
    + split; [destruct IHin as [<- | H]; tauto |].
      constructor; [exact Hd |]. constructor; [lia | exact Hds].
    + split; [tauto |].
      constructor; [lia |]. constructor; [lia |].
      eapply Forall_impl; [exact Hds |]. simpl. intros. lia.
Qed.

Lemma Series_min_spec (l : list Z) (D : Z) :
  Series_min l = Some D -> In D l /\ Forall (fun d => (D <= d)%Z) l.
Proof.
  destruct l as [| d ds]; [discriminate |]. intros [= <-].
  induction ds as [| e ds [IHin IHle]]; simpl.
  - split; [tauto | repeat constructor; lia].
  - apply Forall_cons in IHle as [Hd Hds].
    destruct (Z.min_spec e (fold_right Z.min d ds)) as [[Hlt ->] | [Hle ->]].
    + split; [tauto |].
      constructor; [lia |]. constructor; [lia |].
      eapply Forall_impl; [exact Hds |]. simpl. intros. lia.
    + split; [destruct IHin as [<- | H]; tauto |].
      constructor; [exact Hd |]. constructor; [lia | exact Hds].
Qed.

(** Shifting a column shifts its maximum. *)
Lemma Series_max_shift (l : list Z) (D m : Z) :
  Series_max l = Some D ->
  Series_max (map (fun d => (d - m)%Z) l) = Some (D - m)%Z.
Proof.
  destruct l as [| d ds]; [discriminate |]. intros [= <-]. simpl. f_equal.
  induction ds as [| e ds IH]; simpl; [reflexivity |]. rewrite IH. lia.
Qed.

Lemma length_range (a : Z) (n : nat) : length (range a n) = n.
Proof. unfold range. now rewrite length_map, length_seq. Qed.

Lemma range_lookup (a : Z) (n i : nat) :
  (i < n)%nat -> range a n !! i = Some (a + Z.of_nat i)%Z.
Proof.
  intros Hi. unfold range. rewrite list_lookup_fmap.
  now rewrite lookup_seq_lt.
Qed.

Lemma lookup_combine {A B : Type} (l : list A) (k : list B) (i : nat)
    (a : A) (b : B) :
  l !! i = Some a -> k !! i = Some b -> combine l k !! i = Some (a, b).
Proof.
  revert k i. induction l as [| x l IH]; intros [| y k] [| i]; simpl;
    try discriminate.
  - now intros [= ->] [= ->].
  - apply IH.
Qed.

(** On a frame with at least one row the fit does not raise. *)
Lemma fitted_model_nonempty (df : list weather_row) :
  df <> [] -> exists model, fitted_model df = Ok model.
Proof.
  intros Hne. unfold fitted_model, days, LinearRegression.fit.
  rewrite !length_map, Nat.eqb_refl.
  destruct df as [| r df]; [contradiction |]. simpl. eexists. reflexivity.
Qed.

(** The rows of [future_df], once the fit has returned. *)
Lemma predict_future_temperatures_lookup
    (df : list weather_row) (model : LinearRegression.t) (i : nat) :
  fitted_model df = Ok model ->
  (i < 30)%nat ->
  exists future_df,
    predict_future_temperatures df = Ok future_df /\
    length future_df = 30%nat /\
    future_df !! i =
      Some {| future_date :=
                (default 0 (Series_max (map date df)) + (1 + Z.of_nat i))%Z;
              predicted_avg_temperature :=
                (inject_Z (default 0%Z (Series_max (days df)) + 1
                           + Z.of_nat i)
                 * LinearRegression.coef_ model
                 + LinearRegression.intercept_ model)%Q |}.
Proof.
  intros Hfit Hi. unfold predict_future_temperatures. rewrite Hfit.
  eexists. split; [reflexivity |]. split.
  - rewrite length_map, length_combine, length_map.
    unfold LinearRegression.predict. rewrite !length_map, !length_range.
    reflexivity.
  - rewrite list_lookup_fmap.
    erewrite lookup_combine; [reflexivity | |].
    + rewrite list_lookup_fmap, range_lookup by exact Hi. reflexivity.
    + unfold LinearRegression.predict.
      rewrite !list_lookup_fmap, range_lookup by exact Hi. reflexivity.
Qed.

(** C2.  For a series whose last observed date is [D], the projection
    returns exactly 30 rows; row [i] is dated [D + 1 + i], so the first is
    the day after [D] and each next row is one calendar day later. *)
Theorem projection_thirty_contiguous_days
    (df : list weather_row) (D : datetime) :
  Series_max (map date df) = Some D ->
  exists future_df,
    predict_future_temperatures df = Ok future_df /\
    length future_df = 30%nat /\
    (forall i, (i < 30)%nat ->
       future_date <$> future_df !! i = Some (D + 1 + Z.of_nat i)%Z) /\
    (future_date <$> future_df !! 0%nat = Some (D + 1)%Z) /\
    (forall i r r', future_df !! i = Some r -> future_df !! S i = Some r' ->
       future_date r' = (future_date r + 1)%Z).
Proof.
  intros HD.
  assert (Hne : df <> []) by (intros ->; discriminate).
  destruct (fitted_model_nonempty df Hne) as [model Hfit].
  destruct (predict_future_temperatures_lookup df model 0 Hfit)
    as (future_df & Hdf & Hlen & _); [lia |].
  assert (Hdates : forall i, (i < 30)%nat ->
            future_date <$> future_df !! i = Some (D + 1 + Z.of_nat i)%Z).
  { intros i Hi.
    destruct (predict_future_temperatures_lookup df model i Hfit Hi)
      as (future_df' & Hdf' & _ & Hrow).
    rewrite Hdf in Hdf'. apply Ok_inj in Hdf'. subst future_df'.
    rewrite Hrow, HD. simpl. f_equal. lia. }
  exists future_df. split; [exact Hdf |]. split; [exact Hlen |].
  split; [exact Hdates |]. split.
  - rewrite (Hdates 0%nat) by lia. f_equal. lia.
  - intros i r r' Hr Hr'.
    assert (Hi : (S i < 30)%nat).
    { rewrite <- Hlen. eapply lookup_lt_Some, Hr'. }
    pose proof (Hdates i ltac:(lia)) as Hd.
    pose proof (Hdates (S i) Hi) as Hd'.
    rewrite Hr in Hd. rewrite Hr' in Hd'. simpl in Hd, Hd'.
    injection Hd as ->. injection Hd' as ->. lia.
Qed.

End Projection.

(** ** The fitted line *)

Section LeastSquares.
Local Open Scope Q_scope.
Import LinearRegression.

Lemma inject_Z_length_cons {A : Type} (a : A) (l : list A) :
  inject_Z (Z.of_nat (length (a :: l))) == inject_Z (Z.of_nat (length l)) + 1.
Proof.
  simpl length. rewrite Nat2Z.inj_succ. unfold Z.succ.
  rewrite inject_Z_plus. reflexivity.
Qed.

Lemma inject_Z_length_pos {A : Type} (l : list A) :
  l <> [] -> 0 < inject_Z (Z.of_nat (length l)).
Proof.
  intros Hne. destruct l as [| a l]; [contradiction |].
  change 0 with (inject_Z 0). rewrite <- Zlt_Qlt. simpl length. lia.
Qed.

(** Sums of a column and of a column on the line [a * x + b]. *)
Lemma Qsum_on_line (a b : Q) (X y : list Q) :
  Forall2 (fun x t => t == a * x + b) X y ->
  Qsum y == a * Qsum X + inject_Z (Z.of_nat (length X)) * b.
Proof.
  induction 1 as [| x t X y Hxt _ IH].
  - simpl. ring.
  - rewrite inject_Z_length_cons. simpl Qsum. rewrite IH, Hxt. ring.
Qed.

Lemma mean_on_line (a b : Q) (X y : list Q) :
  X <> [] ->
  Forall2 (fun x t => t == a * x + b) X y ->
  mean y == a * mean X + b.
Proof.
  intros Hne H. unfold mean.
  rewrite <- (Forall2_length _ _ _ H), (Qsum_on_line a b X y H).
  pose proof (inject_Z_length_pos X Hne).
  field. lra.
Qed.

Lemma sxy_on_line (a b mx my : Q) (X y : list Q) :
  my == a * mx + b ->
  Forall2 (fun x t => t == a * x + b) X y ->
  sxy X y mx my == a * sxx X mx.
Proof.
  intros Hm. unfold sxy, sxx.
  induction 1 as [| x t X y Hxt _ IH].
  - simpl. ring.
  - simpl. rewrite IH, Hxt, Hm. ring.
Qed.

Lemma sxx_cons (x : Q) (X : list Q) (mx : Q) :
  sxx (x :: X) mx = (x - mx) * (x - mx) + sxx X mx.
Proof. reflexivity. Qed.

Lemma sxx_nonneg (X : list Q) (mx : Q) : 0 <= sxx X mx.
Proof.
  induction X as [| x X IH]; [unfold sxx; simpl; lra |].
  rewrite sxx_cons. pose proof (Qsquare_nonneg (x - mx)) as H.
  rewrite Qsquare in H. lra.
Qed.

(** The centred feature column is not zero when two features differ. *)
Lemma sxx_pos (X : list Q) (mx x1 x2 : Q) :
  In x1 X -> In x2 X -> ~ x1 == x2 -> 0 < sxx X mx.
Proof.
  intros H1 H2 Hne.
  assert (Hx : exists x, In x X /\ ~ x == mx).
  { destruct (Qeq_dec x1 mx) as [E1 | N1]; [| eauto].
    exists x2. split; [exact H2 |]. intros E2. apply Hne.
    now rewrite E1, E2. }
  destruct Hx as (x & Hin & Hx). clear - Hin Hx.
  induction X as [| x' X IH]; [destruct Hin |].
  rewrite sxx_cons.
  destruct Hin as [-> | Hin].
  - pose proof (sxx_nonneg X mx).
    assert (0 < (x - mx) * (x - mx)); [| lra].
    set (q := x - mx).
    destruct (Qlt_le_dec q 0) as [Hlt | Hle]; [nra |].
    destruct (Qlt_le_dec 0 q) as [Hgt | Hge]; [nra |].
    exfalso. apply Hx. unfold q in *. lra.
  - specialize (IH Hin). pose proof (Qsquare_nonneg (x' - mx)) as H.
    rewrite Qsquare in H. lra.
Qed.

(** On samples that lie on a line the fit returns that line. *)
Lemma fit_on_line (a b : Q) (X y : list Q) (x1 x2 : Q) :
  In x1 X -> In x2 X -> ~ x1 == x2 ->
  Forall2 (fun x t => t == a * x + b) X y ->
  exists model,
    fit X y = Ok model /\ coef_ model == a /\ intercept_ model == b.
Proof.
  intros H1 H2 Hne Hline.
  assert (HX : X <> []) by (intros ->; destruct H1).
  unfold fit.
  rewrite (Forall2_length _ _ _ Hline), Nat.eqb_refl.
  rewrite <- (Forall2_length _ _ _ Hline).
  destruct X as [| x0 X0] eqn:EX; [contradiction |].
  rewrite <- EX in *. clear EX x0 X0. simpl length at 1.
  replace (negb true || (length X =? 0)%nat)%bool with false
    by (destruct X; [contradiction | reflexivity]).
  eexists. split; [reflexivity |].
  pose proof (sxx_pos X (mean X) x1 x2 H1 H2 Hne) as Hpos.
  pose proof (mean_on_line a b X y HX Hline) as Hmean.
  pose proof (sxy_on_line a b (mean X) (mean y) X y Hmean Hline) as Hsxy.
  cbn [coef_ intercept_].
  set (SXX := sxx X (mean X)) in *.
  set (SXY := sxy X y (mean X) (mean y)) in *.
  replace (Qeq_bool SXX 0) with false
    by (symmetry; apply Qeq_bool_false; lra).
  assert (Hcoef : SXY / SXX == a) by (rewrite Hsxy; field; lra).
  split; [exact Hcoef |]. rewrite Hcoef, Hmean. ring.
Qed.

(** *** The fit minimises the sum of squared residuals *)

Lemma Qsum_cons (x : Q) (l : list Q) : Qsum (x :: l) = x + Qsum l.
Proof. reflexivity. Qed.

Lemma Qsum_map_ext {A : Type} (f g : A -> Q) (l : list A) :
  (forall p, f p == g p) -> Qsum (map f l) == Qsum (map g l).
Proof.
  intros H. induction l as [| p l IH]; [reflexivity |].
  rewrite !map_cons, !Qsum_cons, IH, (H p). reflexivity.
Qed.

Lemma Qsum_squares_nonneg {A : Type} (e : A -> Q) (l : list A) :
  0 <= Qsum (map (fun p => e p * e p) l).
Proof.
  induction l as [| p l IH]; [simpl; lra |].
  rewrite map_cons, Qsum_cons.
  pose proof (Qsquare_nonneg (e p)) as H. rewrite Qsquare in H. lra.
Qed.

Lemma map_fst_combine {A B : Type} (l : list A) (k : list B) :
  length l = length k -> map fst (combine l k) = l.
Proof.
  revert k. induction l as [| a l IH]; intros [| b k]; simpl;
    try discriminate; [reflexivity |].
  intros [= H]. now rewrite IH.
Qed.

Lemma map_snd_combine {A B : Type} (l : list A) (k : list B) :
  length l = length k -> map snd (combine l k) = k.
Proof.
  revert k. induction l as [| a l IH]; intros [| b k]; simpl;
    try discriminate; [reflexivity |].
  intros [= H]. now rewrite IH.
Qed.

Lemma Qsum_mean (l : list Q) :
  l <> [] -> Qsum l == inject_Z (Z.of_nat (length l)) * mean l.
Proof.
  intros Hne. unfold mean. pose proof (inject_Z_length_pos l Hne).
  field. lra.
Qed.

(** Moving from the line [(a', b')] to the line
    [(a' - u, b' - c + u * mx)]. *)
Lemma squared_error_shift (l : list (Q * Q)) (mx a' b' u c : Q) :
  Qsum (map (fun p => (snd p - (fst p * (a' - u) + (b' - c + u * mx)))
                      * (snd p - (fst p * (a' - u) + (b' - c + u * mx)))) l)
  == Qsum (map (fun p => (snd p - (fst p * a' + b'))
                         * (snd p - (fst p * a' + b'))) l)
     + 2 * u * Qsum (map (fun p => (snd p - (fst p * a' + b'))
                                   * (fst p - mx)) l)
     + 2 * c * Qsum (map (fun p => snd p - (fst p * a' + b')) l)
     + Qsum (map (fun p => (u * (fst p - mx) + c)
                           * (u * (fst p - mx) + c)) l).
Proof.
  induction l as [| p l IH]; [simpl; ring |].
  rewrite !map_cons, !Qsum_cons, IH. ring.
Qed.

(** The residuals of a line through the point of means sum to zero ... *)
Lemma residuals_sum (l : list (Q * Q)) (a' b' : Q) :
  Qsum (map (fun p => snd p - (fst p * a' + b')) l)
  == Qsum (map snd l) - a' * Qsum (map fst l)
     - inject_Z (Z.of_nat (length l)) * b'.
Proof.
  induction l as [| p l IH]; [simpl; ring |].
  rewrite inject_Z_length_cons, !map_cons, !Qsum_cons, IH. ring.
Qed.

(** ... and their product with the centred features is
    [sxy - a' * sxx]. *)
Lemma residuals_cross (l : list (Q * Q)) (mx my a' : Q) :
  Qsum (map (fun p => (snd p - (fst p * a' + (my - mx * a')))
                      * (fst p - mx)) l)
  == Qsum (map (fun p => (fst p - mx) * (snd p - my)) l)
     - a' * Qsum (map (fun p => (fst p - mx) * (fst p - mx)) l).
Proof.
  induction l as [| p l IH]; [simpl; ring |].
  rewrite !map_cons, !Qsum_cons, IH. ring.
Qed.

(** When the centred features are all zero, so is [sxy]. *)
Lemma centred_zero (l : list (Q * Q)) (mx my : Q) :
  Qsum (map (fun p => (fst p - mx) * (fst p - mx)) l) == 0 ->
  Qsum (map (fun p => (fst p - mx) * (snd p - my)) l) == 0.
Proof.
  induction l as [| p l IH]; [reflexivity |].
  rewrite !map_cons, !Qsum_cons. intros H.
  pose proof (Qsum_squares_nonneg (fun p => fst p - mx) l) as Hl.
  pose proof (Qsquare_nonneg (fst p - mx)) as Hp. rewrite Qsquare in Hp.
  cbv beta in Hl.
  assert (Hl0 : Qsum (map (fun p => (fst p - mx) * (fst p - mx)) l) == 0)
    by lra.
  assert (Hp0 : (fst p - mx) * (fst p - mx) == 0) by lra.
  rewrite (IH Hl0).
  assert (Hz : fst p - mx == 0).
  { destruct (Qeq_dec (fst p - mx) 0) as [E | N]; [exact E |].
    exfalso. apply Qmult_integral in Hp0. tauto. }
  rewrite Hz. ring.
Qed.

(** [fit] is ordinary least squares: no line has a smaller sum of squared
    residuals than the fitted one. *)
Lemma fit_least_squares (X y : list Q) (model : t) (a b : Q) :
  fit X y = Ok model ->
  squared_error X y (coef_ model) (intercept_ model)
  <= squared_error X y a b.
Proof.
  unfold fit.
  destruct (length X =? length y)%nat eqn:Hlen; [| discriminate].
  destruct (length X =? 0)%nat eqn:Hn; [discriminate |].
  apply Nat.eqb_eq in Hlen. apply Nat.eqb_neq in Hn.
  intros <-%Ok_inj. cbn [coef_ intercept_ negb orb].
  assert (HX : X <> []) by (intros ->; apply Hn; reflexivity).
  assert (Hy : y <> []) by (intros ->; apply Hn; rewrite Hlen; reflexivity).
  set (mx := mean X). set (my := mean y).
  set (a' := if Qeq_bool (sxx X mx) 0 then 0 else sxy X y mx my / sxx X mx).
  set (l := combine X y).
  assert (Hfst : map fst l = X) by (apply map_fst_combine, Hlen).
  assert (Hsnd : map snd l = y) by (apply map_snd_combine, Hlen).
  assert (Hll : length l = length X).
  { unfold l. rewrite length_combine, <- Hlen. apply Nat.min_id. }
  assert (Hsxx : sxx X mx
                 == Qsum (map (fun p => (fst p - mx) * (fst p - mx)) l)).
  { unfold sxx. rewrite <- Hfst at 1. rewrite map_map. reflexivity. }
  (* the two normal equations *)
  assert (Hsum : Qsum (map (fun p => snd p - (fst p * a' + (my - mx * a')))
                           l) == 0).
  { rewrite residuals_sum, Hfst, Hsnd, Hll.
    rewrite (Qsum_mean X HX), (Qsum_mean y Hy), <- Hlen.
    fold mx my. ring. }
  assert (Hcross : Qsum (map (fun p => (snd p - (fst p * a'
                                                 + (my - mx * a')))
                                       * (fst p - mx)) l) == 0).
  { assert (Hsxy : sxy X y mx my
                   == Qsum (map (fun p => (fst p - mx) * (snd p - my)) l))
      by reflexivity.
    rewrite residuals_cross, <- Hsxx, <- Hsxy.
    unfold a'. destruct (Qeq_bool (sxx X mx) 0) eqn:E.
    - apply Qeq_bool_iff in E.
      rewrite Hsxy, centred_zero; [ring |]. rewrite <- Hsxx. exact E.
    - apply Qeq_bool_false in E.
      clear - E. revert E.
      generalize (sxx X mx), (sxy X y mx my). intros S1 S2 HS1.
      field. exact HS1. }
  unfold squared_error. fold l.
  set (u := a' - a). set (c := (my - mx * a') - b + u * mx).
  rewrite (Qsum_map_ext
             (fun p => (snd p - (fst p * a + b)) * (snd p - (fst p * a + b)))
             (fun p => (snd p - (fst p * (a' - u)
                                 + ((my - mx * a') - c + u * mx)))
                       * (snd p - (fst p * (a' - u)
                                   + ((my - mx * a') - c + u * mx)))))
    by (intros p; unfold c, u; ring).
  rewrite squared_error_shift, Hsum, Hcross.
  pose proof (Qsum_squares_nonneg (fun p => u * (fst p - mx) + c) l) as Hsq.
  cbv beta in Hsq. lra.
Qed.

End LeastSquares.

(** ** The trend projection on a linear series *)

Section LinearSeries.
Local Open Scope Q_scope.
Import LinearRegression.

Lemma days_eq (df : list weather_row) (date_min : datetime) :
  Series_min (map date df) = Some date_min ->
  days df = map (fun r => (date r - date_min)%Z) df.
Proof. unfold days. now intros ->. Qed.

Lemma Forall2_map_same {A B C : Type} (R : B -> C -> Prop)
    (f : A -> B) (g : A -> C) (l : list A) :
  (forall a, In a l -> R (f a) (g a)) -> Forall2 R (map f l) (map g l).
Proof.
  induction l as [| a l IH]; intros H; simpl; constructor.
  - apply H. now left.
  - apply IH. intros a' Ha'. apply H. now right.
Qed.

(** C8, as amended.  The fitted line is the least-squares line of the
    (day offset, average temperature) pairs: no line has a smaller sum of
    squared residuals.  On a series with at least two distinct dates whose
    average temperature is [2 * offset + 10] at every day offset, it has
    slope 2 and intercept 10, and each of the 30 projected values lies on
    the same line: at day offset [d] it is [2 * d + 10]. *)
Theorem linear_series_fit_and_projection
    (df : list weather_row) (date_min : datetime) (r1 r2 : weather_row) :
  Series_min (map date df) = Some date_min ->
  In r1 df -> In r2 df -> date r1 <> date r2 ->
  (forall r, In r df ->
     avg_temperature r == 2 * inject_Z (date r - date_min) + 10) ->
  exists model future_df,
    fitted_model df = Ok model /\
    (forall a b,
       squared_error (map inject_Z (days df)) (map avg_temperature df)
         (coef_ model) (intercept_ model)
       <= squared_error (map inject_Z (days df)) (map avg_temperature df)
            a b) /\
    coef_ model == 2 /\ intercept_ model == 10 /\
    predict_future_temperatures df = Ok future_df /\
    length future_df = 30%nat /\
    forall i row, future_df !! i = Some row ->
      predicted_avg_temperature row
        == 2 * inject_Z (future_date row - date_min) + 10.
Proof.
  intros Hmin H1 H2 Hne Hline.
  pose proof (days_eq df date_min Hmin) as Hdays.
  assert (Hfit : exists model,
             fitted_model df = Ok model /\
             coef_ model == 2 /\ intercept_ model == 10).
  { unfold fitted_model. rewrite Hdays, map_map.
    apply fit_on_line with
      (x1 := inject_Z (date r1 - date_min))
      (x2 := inject_Z (date r2 - date_min)).
    - apply (in_map (fun r => inject_Z (date r - date_min))), H1.
    - apply (in_map (fun r => inject_Z (date r - date_min))), H2.
    - rewrite inject_Z_injective. lia.
    - apply Forall2_map_same. exact Hline. }
  destruct Hfit as (model & Hfit & Hcoef & Hicpt).
  destruct (Series_max (map date df)) as [date_max |] eqn:Hmax;
    [| destruct df; [destruct H1 | discriminate]].
  assert (Hdmax : Series_max (days df) = Some (date_max - date_min)%Z).
  { rewrite Hdays, <- (map_map date (fun d => (d - date_min)%Z)).
    apply Series_max_shift, Hmax. }
  destruct (predict_future_temperatures_lookup df model 0 Hfit)
    as (future_df & Hdf & Hlen & _); [lia |].
  exists model, future_df. split; [exact Hfit |].
  split; [intros a b; apply fit_least_squares, Hfit |].
  repeat (split; [assumption |]).
  intros i row Hrow.
  assert (Hi : (i < 30)%nat).
  { rewrite <- Hlen. eapply lookup_lt_Some, Hrow. }
  destruct (predict_future_temperatures_lookup df model i Hfit Hi)
    as (future_df' & Hdf' & _ & Hrow').
  rewrite Hdf in Hdf'. apply Ok_inj in Hdf'. subst future_df'.
  rewrite Hrow in Hrow'. injection Hrow' as ->.
  rewrite Hmax, Hdmax.
  cbn [predicted_avg_temperature future_date default from_option id].
  rewrite Hcoef, Hicpt.
  replace (date_max + (1 + Z.of_nat i) - date_min)%Z
    with (date_max - date_min + 1 + Z.of_nat i)%Z by lia.
  ring.
Qed.

End LinearSeries.

(** ** Instances on sample inputs *)

Section Instances.
Local Open Scope Q_scope.
Import Samples LinearRegression.

Lemma score_within_0_100_witness :
  0 <= analyze_rice_crop_health 31 40 <= 100 /\
  exists v,
    calculate_rice_crop_health_score hot_dry_row = ([], Some v) /\
    0 <= v <= 100.
Proof.
  split.
  - apply (proj1 score_within_0_100).
  - apply (proj2 score_within_0_100 hot_dry_row 41.5 35 0 7.1);
      reflexivity.
Defined.

Lemma ideal_values_score_100_witness :
  exists v,
    calculate_rice_crop_health_score ideal_row = ([], Some v) /\ v == 100.
Proof.
  apply (proj2 (proj2 ideal_values_score_100) ideal_row); reflexivity.
Defined.


Lemma scorers_never_fail_witness :
  exists st sh sp ss,
    parameter_score "temperature" (CNum 28) = Ok st /\
    parameter_score "humidity" CNone = Ok sh /\
    parameter_score "precipitation" (CNum 120) = Ok sp /\
    parameter_score "solar_radiation" (CNum 5.5) = Ok ss /\
    calculate_rice_crop_health_score row_without_humidity =
      ([], Some (st * 0.35 + sp * 0.3 + sh * 0.2 + ss * 0.15)) /\
    0 <= st * 0.35 + sp * 0.3 + sh * 0.2 + ss * 0.15 <= 100 /\
    sh = 0.
Proof.
  destruct (scorers_never_fail row_without_humidity
              (CNum 28) CNone (CNum 120) (CNum 5.5))
    as (_ & st & sh & sp & ss & Et & Eh & Ep & Es & E & B & _ & Hh & _);
    try reflexivity; try discriminate.
  exists st, sh, sp, ss. repeat (split; [assumption |]).
  apply Hh. reflexivity.
Defined.

Lemma score_jumps_up_outside_band_witness :
  exists s,
    calculate_parameter_score (CNum 35.5)
      {| min_ := 20; max_ := 35; ideal := 25 |} = Ok s /\ 45 <= s.
Proof.
  destruct score_jumps_up_outside_band
    as (pc & s1 & s2 & Hpc & _ & _ & _ & _ & _ & _ & _ & _ & H).
  assert (pc = {| min_ := 20; max_ := 35; ideal := 25 |}) as ->.
  { assert (Some pc = Some {| min_ := 20; max_ := 35; ideal := 25 |})
      as E by (rewrite <- Hpc; reflexivity).
    now injection E. }
  apply (H 35.5); reflexivity || discriminate.
Defined.

Lemma incomplete_record_dropped_witness :
  exists df,
    snd (fetch_nasa_power_data Strptime.Ymd
           (valid_reply
              ([("20240101"%string, complete_values)]
               ++ ("20240102"%string, values_without_T2M)
               :: [("20240103"%string, complete_values)]))) = Some df /\
    length df = 2%nat /\
    snd (fetch_nasa_power_data Strptime.Ymd
           (valid_reply
              ([("20240101"%string, complete_values)]
               ++ [("20240103"%string, complete_values)]))) = Some df.
Proof.
  apply (incomplete_record_dropped Strptime.Ymd
           [("20240101"%string, complete_values)]
           [("20240103"%string, complete_values)]
           ("20240102"%string, values_without_T2M)).
  - repeat constructor.
  - repeat constructor.
  - reflexivity.
  - discriminate.
Defined.

(** A payload whose only date record lacks a value: the normaliser
    returns [None], not a frame of [1 - 1 = 0] rows. *)
Lemma single_incomplete_record_gives_no_frame :
  let items := [("20240102"%string, values_without_T2M)] in
  Forall (fun i => Strptime.Ymd (fst i) <> None) items /\
  has_all_values values_without_T2M = false /\
  fetch_nasa_power_data Strptime.Ymd (valid_reply items) =
    ([write Requesting_URL;
      write (Debug_Available_parameters ["20240102"%string]);
      error No_valid_data_could_be_processed], None) /\
  ~ exists df,
      snd (fetch_nasa_power_data Strptime.Ymd (valid_reply items)) = Some df
      /\ length df = (length items - 1)%nat.
Proof.
  split; [repeat constructor; discriminate |].
  split; [reflexivity |]. split; [reflexivity |].
  intros (df & Hdf & _). vm_compute in Hdf. discriminate Hdf.
Qed.

Lemma empty_series_returns_None_witness :
  exists log,
    fetch_nasa_power_data Strptime.Ymd
      (valid_reply [("20240102"%string, values_without_T2M);
                    ("T2M"%string, complete_values);
                    ("20240104"%string, values_with_null_RH2M)]) =
      (log ++ [error No_valid_data_could_be_processed], None) /\
    main Strptime.Ymd
      (valid_reply [("20240102"%string, values_without_T2M);
                    ("T2M"%string, complete_values);
                    ("20240104"%string, values_with_null_RH2M)]) =
      (log ++ [error No_valid_data_could_be_processed;
               error No_data_could_be_retrieved_from_NASA_POWER_API],
       None).
Proof.
  apply (empty_series_returns_None Strptime.Ymd). repeat constructor.
Defined.

Lemma normalised_rows_complete_witness :
  let row := daily_record 738886%Z complete_values in
  (forall column, In column parameter_columns ->
     exists q, row !! column = Some (CNum q)) /\
  (forall column value, In column parameter_columns ->
     row !! column = Some value -> is_None value = false) /\
  (exists v, calculate_rice_crop_health_score row = ([], Some v)).
Proof.
  apply (normalised_rows_complete Strptime.Ymd
           (valid_reply [("20240101"%string, complete_values);
                         ("20240102"%string, values_with_null_RH2M)])
           [write Requesting_URL;
            write (Debug_Available_parameters
                     ["20240101"%string; "20240102"%string])]
           [daily_record 738886%Z complete_values]).
  - reflexivity.
  - left. reflexivity.
Defined.

Lemma projection_thirty_contiguous_days_witness :
  exists future_df,
    predict_future_temperatures three_linear_days = Ok future_df /\
    length future_df = 30%nat /\
    (forall i, (i < 30)%nat ->
       future_date <$> future_df !! i
         = Some (738888 + 1 + Z.of_nat i)%Z) /\
    (future_date <$> future_df !! 0%nat = Some (738888 + 1)%Z) /\
    (forall i r r', future_df !! i = Some r -> future_df !! S i = Some r' ->
       future_date r' = (future_date r + 1)%Z).
Proof.
  apply (projection_thirty_contiguous_days three_linear_days 738888%Z).
  reflexivity.
Defined.

Lemma linear_series_fit_and_projection_witness :
  exists model future_df,
    fitted_model three_linear_days = Ok model /\
    (forall a b,
       squared_error (map inject_Z (days three_linear_days))
         (map avg_temperature three_linear_days)
         (coef_ model) (intercept_ model)
       <= squared_error (map inject_Z (days three_linear_days))
            (map avg_temperature three_linear_days) a b) /\
    coef_ model == 2 /\ intercept_ model == 10 /\
    predict_future_temperatures three_linear_days = Ok future_df /\
    length future_df = 30%nat /\
    forall i row, future_df !! i = Some row ->
      predicted_avg_temperature row
        == 2 * inject_Z (future_date row - 738886) + 10.
Proof.
  apply (linear_series_fit_and_projection three_linear_days 738886%Z
           (weather 738886%Z 12 8 0) (weather 738887%Z 15 9 4)).
  - reflexivity.
  - left. reflexivity.
  - right. left. reflexivity.
  - discriminate.
  - intros r [<- | [<- | [<- | []]]]; reflexivity.
Defined.

(** A series of one day: its only point is on the line [2 * i + 10], yet
    the fit is flat (slope 0, intercept 10), and the first projected value
    is 10, not [2 * 1 + 10]. *)
Lemma single_point_fit_is_flat :
  Series_min (map date one_day) = Some 738886%Z /\
  (forall r, In r one_day ->
     avg_temperature r == 2 * inject_Z (date r - 738886) + 10) /\
  exists model future_df row,
    fitted_model one_day = Ok model /\
    coef_ model == 0 /\ ~ coef_ model == 2 /\ intercept_ model == 10 /\
    predict_future_temperatures one_day = Ok future_df /\
    future_df !! 0%nat = Some row /\
    future_date row = 738887%Z /\
    predicted_avg_temperature row == 10 /\
    ~ predicted_avg_temperature row
        == 2 * inject_Z (future_date row - 738886) + 10.
Proof.
  split; [reflexivity |].
  split; [intros r [<- | []]; reflexivity |].
  do 3 eexists.
  split; [vm_compute; reflexivity |].
  split; [reflexivity |]. split; [discriminate |]. split; [reflexivity |].
  split; [vm_compute; reflexivity |].
  split; [reflexivity |]. split; [reflexivity |]. split; [reflexivity |].
  discriminate.
Qed.

End Instances.

(** ** Nearby values in binary64 *)

Section Binary64Instances.
Import PrimFloat.
Local Open Scope float_scope.


End Binary64Instances.

(** * Further properties of the scripts *)

(** ** The normaliser on arbitrary replies *)

Section NormaliserMore.
Variable strptime : string -> option datetime.

(** What survives the loop and [dropna]: one record per usable item, in the
    order of the payload. *)
Lemma dropna_process_items_usable (items : parameter_dict) :
  Forall2
    (fun item row =>
       exists d, strptime (fst item) = Some d /\
                 row = daily_record d (snd item))
    (List.filter (usable strptime) items)
    (dropna (snd (process_items strptime items))).
Proof.
  induction items as [| [date values] items IH]; [constructor |].
  rewrite process_items_cons. cbn [List.filter]. unfold usable at 1.
  cbn [fst snd]. unfold dropna in *.
  destruct (strptime date) as [d |] eqn:Hd; cbn [snd]; [| exact IH].
  destruct (has_all_values values) eqn:Hv.
  - rewrite filter_cons_True
      by exact (proj2 (daily_record_kept strptime d values) Hv).
    constructor; [eauto | exact IH].
  - rewrite filter_cons_False; [exact IH |].
    rewrite (daily_record_kept strptime). congruence.
Qed.

Lemma filter_usable_nil (items : parameter_dict) :
  List.filter (usable strptime) items = [] <->
  existsb (usable strptime) items = false.
Proof.
  induction items as [| item items IH]; [tauto |].
  cbn [List.filter existsb]. destruct (usable strptime item); [| exact IH].
  split; discriminate.
Qed.

(** The [st.error] calls of the loop: one per key that does not parse, in
    the order of the payload. *)
Lemma process_items_log (items : parameter_dict) :
  fst (process_items strptime items) =
    map (fun item => error (Error_processing_date (fst item)))
        (List.filter
           (fun item => match strptime (fst item) with
                        | Some _ => false
                        | None => true
                        end) items).
Proof.
  induction items as [| [date values] items IH]; [reflexivity |].
  rewrite process_items_cons. cbn [List.filter fst].
  destruct (strptime date); cbn [fst map]; now rewrite IH.
Qed.

End NormaliserMore.

Section NormaliserExtras.

(** X1.  The frame returned by the normaliser is the list of the records
    of the usable items of the payload, in payload order; when no item is
    usable it returns [None]. *)
Theorem fetch_rows_are_usable_records
    (strptime : string -> option datetime) (items : parameter_dict) :
  match snd (fetch_nasa_power_data strptime (valid_reply items)) with
  | Some df =>
      Forall2
        (fun item row =>
           exists d, strptime (fst item) = Some d /\
                     row = daily_record d (snd item))
        (List.filter (usable strptime) items) df
  | None => List.filter (usable strptime) items = []
  end.
Proof.
  rewrite fetch_valid_reply.
  pose proof (dropna_process_items_usable strptime items) as H.
  destruct (dropna (snd (process_items strptime items))) as [| row df].
  - now apply Forall2_nil_inv_r in H.
  - exact H.
Qed.

(** X2.  The [st] calls of the normaliser on a structurally valid
    payload: the URL, the debug line with all keys, one "Error processing
    date" per key that does not parse (in payload order), and a final "No
    valid data could be processed" exactly when no item is usable. *)
Theorem fetch_log_of_valid_reply
    (strptime : string -> option datetime) (items : parameter_dict) :
  fst (fetch_nasa_power_data strptime (valid_reply items)) =
    [write Requesting_URL;
     write (Debug_Available_parameters (map fst items))]
    ++ map (fun item => error (Error_processing_date (fst item)))
           (List.filter
              (fun item => match strptime (fst item) with
                           | Some _ => false
                           | None => true
                           end) items)
    ++ (if existsb (usable strptime) items then []
        else [error No_valid_data_could_be_processed]).
Proof.
  pose proof (dropna_process_items_usable strptime items) as H.
  pose proof (process_items_log strptime items) as Hlog.
  unfold fetch_nasa_power_data, valid_reply. simpl.
  destruct (process_items strptime items) as [log rows].
  cbn [fst snd] in *. rewrite <- Hlog.
  destruct (dropna rows) as [| row df]; cbn [empty fst].
  - apply Forall2_nil_inv_r in H. apply filter_usable_nil in H.
    rewrite H. reflexivity.
  - destruct (existsb (usable strptime) items) eqn:E.
    + now rewrite app_nil_r.
    + apply filter_usable_nil in E. rewrite E in H. inversion H.
Qed.

(** X3.  The normaliser returns a frame only for a reply with status 200
    whose JSON has [properties] and [parameter] and holds a usable item;
    the frame it returns is never empty. *)
Theorem fetch_frame_never_empty
    (strptime : string -> option datetime) (reply : http_reply)
    (log : list st_call) (df : list (gmap string cell)) :
  fetch_nasa_power_data strptime reply = (log, Some df) ->
  df <> [] /\
  exists items,
    reply = valid_reply items /\
    existsb (usable strptime) items = true.
Proof.
  unfold fetch_nasa_power_data.
  destruct reply as [| status_code [[[[[items |]] |]] |]]; try discriminate;
    destruct (status_code =? 200)%Z eqn:Hs; cbn [negb];
    try discriminate.
  apply Z.eqb_eq in Hs. subst status_code. simpl.
  pose proof (dropna_process_items_usable strptime items) as H.
  destruct (process_items strptime items) as [log' rows]. cbn [snd] in H.
  destruct (dropna rows) as [| row df'] eqn:E; cbn [empty]; [discriminate |].
  intros [= _ <-]. split; [discriminate |].
  exists items. split; [reflexivity |].
  destruct (existsb (usable strptime) items) eqn:Ex; [reflexivity |].
  apply filter_usable_nil in Ex. rewrite Ex in H. inversion H.
Qed.

(** X4.  Whenever the normaliser returns [None], the last thing it did
    was an [st.error] call: no failure is silent. *)
Theorem fetch_failure_is_reported
    (strptime : string -> option datetime) (reply : http_reply) :
  snd (fetch_nasa_power_data strptime reply) = None ->
  exists log m,
    fst (fetch_nasa_power_data strptime reply) = log ++ [error m].
Proof.
  unfold fetch_nasa_power_data.
  destruct reply as [| status_code [data |]].
  - intros _. exists [write Requesting_URL], Request_Error. reflexivity.
  - destruct (negb (status_code =? 200)%Z).
    + intros _.
      exists [write Requesting_URL; error (HTTP_Error status_code)],
             Response_Content. reflexivity.
    + destruct (properties data ≫= parameter) as [items |].
      * destruct (process_items strptime items) as [log rows].
        destruct (empty (dropna rows)); [| discriminate].
        intros _. eexists _, _. reflexivity.
      * intros _.
        exists [write Requesting_URL; error Unexpected_data_structure],
               Received_data. reflexivity.
  - destruct (negb (status_code =? 200)%Z); intros _.
    + exists [write Requesting_URL; error (HTTP_Error status_code)],
             Response_Content. reflexivity.
    + exists [write Requesting_URL; error JSON_Decode_Error],
             Response_Content. reflexivity.
Qed.

End NormaliserExtras.

(** ** The Policy B scorer on arbitrary rows *)

Section ScorerMore.
Local Open Scope Q_scope.

Lemma parameter_score_date (name : string) (d : datetime) (s : Q) :
  parameter_score name (CDate d) <> Ok s.
Proof.
  unfold parameter_score.
  destruct (getitem conditions name) as [pc | e]; [| discriminate].
  rewrite bind_Ok. discriminate.
Qed.

Lemma getitem_Ok {V : Type} (m : gmap string V) (k : string) (v : V) :
  getitem m k = Ok v -> m !! k = Some v.
Proof. unfold getitem. destruct (m !! k); now intros [= ->]. Qed.

(** One column read and scored inside the [try] block. *)
Lemma column_step (row : gmap string cell) (name : string)
    (k : Q -> result Q) (v : Q) :
  (c ← getitem row name; s ← parameter_score name c; k s) = Ok v ->
  exists c s,
    row !! name = Some c /\ (forall d, c <> CDate d) /\
    parameter_score name c = Ok s /\ k s = Ok v.
Proof.
  destruct (getitem row name) as [c | e] eqn:Hc; [| discriminate].
  rewrite bind_Ok.
  destruct (parameter_score name c) as [s | e] eqn:Hs; [| discriminate].
  rewrite bind_Ok. intros Hk. exists c, s.
  split; [now apply getitem_Ok |]. split; [| tauto].
  intros d ->. now apply parameter_score_date in Hs.
Qed.

End ScorerMore.

Section ScorerExtras.
Local Open Scope Q_scope.

(** X5.  The scorer returns a score exactly when each of the four
    parameter columns is present in the row and does not hold a timestamp;
    otherwise it makes one [st.error] call and returns [None]. *)
Theorem score_returned_iff_columns_readable (row : gmap string cell) :
  ((exists v, calculate_rice_crop_health_score row = ([], Some v)) <->
   (forall column, In column parameter_columns ->
      exists c, row !! column = Some c /\ forall d, c <> CDate d)) /\
  ((exists v, calculate_rice_crop_health_score row = ([], Some v)) \/
   (exists e, calculate_rice_crop_health_score row =
                ([error (Error_calculating_crop_health_score e)], None))).
Proof.
  split; [split |].
  - intros [v Hv]. unfold calculate_rice_crop_health_score in Hv.
    destruct (crop_health_score row) as [v' | e] eqn:E; [| discriminate].
    clear Hv. rewrite crop_health_score_unfold in E.
    apply column_step in E as (ct & st & Ht & Dt & _ & E).
    apply column_step in E as (ch & sh & Hh & Dh & _ & E).
    apply column_step in E as (cp & sp & Hp & Dp & _ & E).
    apply column_step in E as (cs & ss & Hs & Ds & _ & E).
    intros column Hc. simpl in Hc.
    destruct Hc as [<- | [<- | [<- | [<- | []]]]]; eauto.
  - intros H.
    destruct (H "temperature"%string) as (ct & Ht & Dt); [simpl; tauto |].
    destruct (H "humidity"%string) as (ch & Hh & Dh); [simpl; tauto |].
    destruct (H "precipitation"%string) as (cp & Hp & Dp); [simpl; tauto |].
    destruct (H "solar_radiation"%string) as (cs & Hs & Ds); [simpl; tauto |].
    destruct (crop_health_score_Ok row _ _ _ _ Ht Hh Hp Hs Dt Dh Dp Ds)
      as (st & sh & sp & ss & _ & _ & _ & _ & E).
    eexists. apply calculate_rice_crop_health_score_Ok, E.
  - unfold calculate_rice_crop_health_score.
    destruct (crop_health_score row) as [v | e]; eauto.
Qed.

(** X7.  Outside the band, a value that is 20 or more away from the ideal
    scores 0.  So precipitation, whose band ends 50 away from the ideal,
    scores 0 everywhere outside [[100, 200]]. *)
Theorem out_of_band_score_zero_beyond_20 :
  (forall (pc : param_conditions) (v : Q),
     outside_band v pc = true ->
     20 <= Qabs (v - ideal pc) ->
     exists s, calculate_parameter_score (CNum v) pc = Ok s /\ s == 0) /\
  (forall v : Q,
     v < 100 \/ 200 < v ->
     exists s, parameter_score "precipitation" (CNum v) = Ok s /\ s == 0).
Proof.
  assert (G : forall (pc : param_conditions) (v : Q),
     outside_band v pc = true ->
     20 <= Qabs (v - ideal pc) ->
     exists s, calculate_parameter_score (CNum v) pc = Ok s /\ s == 0).
  { intros pc v Hb Hfar. unfold calculate_parameter_score. cbn [is_None].
    rewrite Hb. eexists. split; [reflexivity |].
    destruct (Q.max_spec 0 (100 - Qabs (v - ideal pc) * 5))
      as [[Hlt E] | [Hle E]]; rewrite E; lra. }
  split; [exact G |].
  intros v Hv.
  set (pc := {| min_ := 100; max_ := 200; ideal := 150 |}).
  assert (Hb : outside_band v pc = true) by (apply outside_band_true; exact Hv).
  assert (Hfar : 20 <= Qabs (v - ideal pc)).
  { cbn [ideal pc]. apply Qabs_case; intros; destruct Hv; lra. }
  destruct (G pc v Hb Hfar) as (s & Hs & Hz).
  exists s. split; [| exact Hz].
  unfold parameter_score.
  rewrite (getitem_conditions "precipitation" pc) by (simpl; tauto).
  rewrite bind_Ok. exact Hs.
Qed.

End ScorerExtras.

(** ** Policy A as a function of the two distances *)

Section PolicyAExtras.
Local Open Scope Q_scope.

Lemma penalty_monotone (d1 d2 rate : Q) :
  0 <= rate -> d1 <= d2 ->
  Qmax 0 (100 - d2 * rate) <= Qmax 0 (100 - d1 * rate).
Proof. intros Hr Hd. apply Q.max_le_compat_l. nra. Qed.

(** X8.  Policy A never rewards moving away from the ideal: when the
    temperature is at least as far from 25 and the rainfall at least as far
    from 125, the score is not greater. *)
Theorem policy_A_monotone (t1 r1 t2 r2 : Q) :
  Qabs (t1 - 25) <= Qabs (t2 - 25) ->
  Qabs (r1 - 125) <= Qabs (r2 - 125) ->
  analyze_rice_crop_health t2 r2 <= analyze_rice_crop_health t1 r1.
Proof.
  intros Ht Hr. unfold analyze_rice_crop_health, temp_score, rain_score.
  pose proof (penalty_monotone _ _ 3 ltac:(lra) Ht).
  pose proof (penalty_monotone _ _ 0.8 ltac:(lra) Hr).
  lra.
Qed.

(** X9.  Each factor of Policy A saturates.  With a rainfall total that is
    125 or more away from 125 (at most 0, or at least 250) the rainfall
    factor is 0, and the score is 0.6 times the temperature factor, hence at
    most 60.  With a temperature that is 34 or more away from 25 the
    temperature factor is 0, and the score is 0.4 times the rainfall factor,
    hence at most 40. *)
Theorem policy_A_saturates (t r : Q) :
  (125 <= Qabs (r - 125) ->
     rain_score r == 0 /\
     analyze_rice_crop_health t r == temp_score t * 0.6 /\
     analyze_rice_crop_health t r <= 60) /\
  (34 <= Qabs (t - 25) ->
     temp_score t == 0 /\
     analyze_rice_crop_health t r == rain_score r * 0.4 /\
     analyze_rice_crop_health t r <= 40).
Proof.
  pose proof (temp_score_bounds t) as [Ht0 Ht].
  pose proof (rain_score_bounds r) as [Hr0 Hr].
  split; intros Hfar.
  - assert (E : rain_score r == 0).
    { unfold rain_score.
      destruct (Q.max_spec 0 (100 - Qabs (r - 125) * 0.8))
        as [[Hlt E] | [Hle E]]; rewrite E; lra. }
    unfold analyze_rice_crop_health. rewrite E.
    repeat split; lra.
  - assert (E : temp_score t == 0).
    { unfold temp_score.
      destruct (Q.max_spec 0 (100 - Qabs (t - 25) * 3))
        as [[Hlt E] | [Hle E]]; rewrite E; lra. }
    unfold analyze_rice_crop_health. rewrite E.
    repeat split; lra.
Qed.

End PolicyAExtras.

(** ** [process_weather_data] and the projection *)

Section WeatherMore.
Local Open Scope Q_scope.
Import LinearRegression.

Lemma process_weather_data_Ok
    (dates : list datetime) (max_temps min_temps rain : list Q) :
  length max_temps = length dates ->
  length min_temps = length dates ->
  length rain = length dates ->
  exists df,
    process_weather_data dates max_temps min_temps rain = Ok df /\
    map date df = dates /\
    map max_temperature df = max_temps /\
    map min_temperature df = min_temps /\
    map rainfall df = rain /\
    Forall (fun r => avg_temperature r
                     == (max_temperature r + min_temperature r) / 2) df.
Proof.
  intros H1 H2 H3. unfold process_weather_data.
  rewrite H1, H2, H3, !Nat.eqb_refl. cbn [andb].
  eexists. split; [reflexivity |].
  revert max_temps min_temps rain H1 H2 H3.
  induction dates as [| d dates IH];
    intros [| a max_temps] [| b min_temps] [| c rain] H1 H2 H3;
    try discriminate; cbn [combine map].
  - repeat split; constructor.
  - injection H1 as H1. injection H2 as H2. injection H3 as H3.
    destruct (IH _ _ _ H1 H2 H3) as (E1 & E2 & E3 & E4 & E5).
    cbn [date max_temperature min_temperature rainfall avg_temperature].
    rewrite E1, E2, E3, E4.
    repeat split; try reflexivity. constructor; [reflexivity | exact E5].
Qed.

(** X10.  [process_weather_data] raises [ValueError] exactly when the
    arrays differ in length.  Otherwise the frame has one row per date, and
    its date, maximum, minimum and rainfall columns are the four arrays,
    unchanged and in the same order. *)
Theorem process_weather_data_columns
    (dates : list datetime) (max_temps min_temps rain : list Q) :
  match process_weather_data dates max_temps min_temps rain with
  | Ok df =>
      length df = length dates /\
      map date df = dates /\
      map max_temperature df = max_temps /\
      map min_temperature df = min_temps /\
      map rainfall df = rain
  | Raise e =>
      e = ValueError /\
      ~ (length max_temps = length dates /\
         length min_temps = length dates /\
         length rain = length dates)
  end.
Proof.
  destruct (Nat.eq_dec (length max_temps) (length dates)) as [H1 | H1];
    [destruct (Nat.eq_dec (length min_temps) (length dates)) as [H2 | H2];
     [destruct (Nat.eq_dec (length rain) (length dates)) as [H3 | H3] |] |].
  - destruct (process_weather_data_Ok _ _ _ _ H1 H2 H3)
      as (df & -> & E1 & E2 & E3 & E4 & _).
    split; [now rewrite <- (length_map date), E1 |].
    repeat split; assumption.
  - unfold process_weather_data.
    rewrite (proj2 (Nat.eqb_neq _ _) H3), !andb_false_r. split; tauto.
  - unfold process_weather_data.
    rewrite (proj2 (Nat.eqb_neq _ _) H2), andb_false_r. cbn [andb].
    split; tauto.
  - unfold process_weather_data.
    rewrite (proj2 (Nat.eqb_neq _ _) H1). cbn [andb]. split; tauto.
Qed.

(** X12.  The projected temperatures lie on a straight line whose step
    per day is the fitted slope. *)
Theorem projection_steps_by_slope
    (df : list weather_row) (model : LinearRegression.t) :
  fitted_model df = Ok model ->
  exists future_df,
    predict_future_temperatures df = Ok future_df /\
    forall i r r',
      future_df !! i = Some r -> future_df !! S i = Some r' ->
      predicted_avg_temperature r'
      == predicted_avg_temperature r + coef_ model.
Proof.
  intros Hfit.
  destruct (predict_future_temperatures_lookup df model 0 Hfit)
    as (future_df & Hdf & Hlen & _); [lia |].
  exists future_df. split; [exact Hdf |].
  intros i r r' Hr Hr'.
  assert (Hi : (S i < 30)%nat).
  { rewrite <- Hlen. eapply lookup_lt_Some, Hr'. }
  destruct (predict_future_temperatures_lookup df model i Hfit ltac:(lia))
    as (f1 & Hf1 & _ & Hrow).
  destruct (predict_future_temperatures_lookup df model (S i) Hfit Hi)
    as (f2 & Hf2 & _ & Hrow').
  rewrite Hdf in Hf1, Hf2. apply Ok_inj in Hf1, Hf2. subst f1 f2.
  rewrite Hr in Hrow. rewrite Hr' in Hrow'.
  injection Hrow as ->. injection Hrow' as ->.
  cbn [predicted_avg_temperature].
  rewrite Nat2Z.inj_succ. unfold Z.succ. rewrite !inject_Z_plus. ring.
Qed.

Lemma Qsum_constant (c : Q) (l : list Q) :
  Forall (fun t => t == c) l ->
  Qsum l == inject_Z (Z.of_nat (length l)) * c.
Proof.
  induction 1 as [| t l Ht _ IH]; [simpl; ring |].
  rewrite inject_Z_length_cons, Qsum_cons, IH, Ht. ring.
Qed.

Lemma sxy_constant (c my : Q) (X y : list Q) (mx : Q) :
  my == c -> Forall (fun t => t == c) y -> sxy X y mx my == 0.
Proof.
  intros Hm Hy. unfold sxy. revert X.
  induction Hy as [| t y Ht _ IH]; intros [| x X]; try reflexivity.
  cbn [combine map fst snd]. rewrite Qsum_cons, IH, Ht, Hm. ring.
Qed.

(** X13.  A series whose average temperature is the same on every day is
    projected at that same temperature on each of the 30 days. *)
Theorem constant_series_projects_constant
    (df : list weather_row) (c : Q) :
  df <> [] ->
  (forall r, In r df -> avg_temperature r == c) ->
  exists future_df,
    predict_future_temperatures df = Ok future_df /\
    length future_df = 30%nat /\
    forall i row, future_df !! i = Some row ->
      predicted_avg_temperature row == c.
Proof.
  intros Hne Hc.
  destruct (fitted_model_nonempty df Hne) as [model Hfit].
  assert (Hy : Forall (fun t => t == c) (map avg_temperature df)).
  { clear Hne Hfit. induction df as [| r df IH]; constructor.
    - apply Hc. now left.
    - apply IH. intros r' Hr'. apply Hc. now right. }
  assert (Hmodel : coef_ model == 0 /\ intercept_ model == c).
  { unfold fitted_model, fit in Hfit.
    destruct (negb _ || _)%bool; [discriminate |].
    apply Ok_inj in Hfit. subst model. cbn [coef_ intercept_].
    set (X := map inject_Z (days df)) in *.
    set (y := map avg_temperature df) in *.
    assert (Hmean : mean y == c).
    { unfold mean. rewrite (Qsum_constant c y Hy).
      assert (Hy0 : y <> []) by (unfold y; destruct df; [easy | discriminate]).
      pose proof (inject_Z_length_pos y Hy0). field. lra. }
    pose proof (sxy_constant c (mean y) X y (mean X) Hmean Hy) as Hsxy.
    assert (Hcoef : (if Qeq_bool (sxx X (mean X)) 0 then 0
                     else sxy X y (mean X) (mean y) / sxx X (mean X)) == 0).
    { destruct (Qeq_bool (sxx X (mean X)) 0); [reflexivity |].
      rewrite Hsxy. unfold Qdiv. ring. }
    split; [exact Hcoef |]. rewrite Hcoef, Hmean. ring. }
  destruct Hmodel as [Hcoef Hicpt].
  destruct (predict_future_temperatures_lookup df model 0 Hfit)
    as (future_df & Hdf & Hlen & _); [lia |].
  exists future_df. split; [exact Hdf |]. split; [exact Hlen |].
  intros i row Hrow.
  assert (Hi : (i < 30)%nat).
  { rewrite <- Hlen. eapply lookup_lt_Some, Hrow. }
  destruct (predict_future_temperatures_lookup df model i Hfit Hi)
    as (f' & Hf' & _ & Hrow').
  rewrite Hdf in Hf'. apply Ok_inj in Hf'. subst f'.
  rewrite Hrow in Hrow'. injection Hrow' as ->.
  cbn [predicted_avg_temperature]. rewrite Hcoef, Hicpt. ring.
Qed.

End WeatherMore.

(** ** The projection and the calendar *)

Section CalendarShift.
Import Shifted.

Lemma Series_min_later (l : list Z) (k : Z) :
  Series_min (map (fun d => (d + k)%Z) l)
  = (fun d => (d + k)%Z) <$> Series_min l.
Proof.
  destruct l as [| d ds]; [reflexivity |]. simpl. f_equal.
  induction ds as [| e ds IH]; simpl; [reflexivity |]. rewrite IH. lia.
Qed.

Lemma Series_max_later (l : list Z) (k : Z) :
  Series_max (map (fun d => (d + k)%Z) l)
  = (fun d => (d + k)%Z) <$> Series_max l.
Proof.
  destruct l as [| d ds]; [reflexivity |]. simpl. f_equal.
  induction ds as [| e ds IH]; simpl; [reflexivity |]. rewrite IH. lia.
Qed.

Lemma map_date_later (k : Z) (df : list weather_row) :
  map date (later k df) = map (fun d => (d + k)%Z) (map date df).
Proof. unfold later. now rewrite !map_map. Qed.

Lemma map_avg_later (k : Z) (df : list weather_row) :
  map avg_temperature (later k df) = map avg_temperature df.
Proof. unfold later. now rewrite map_map. Qed.

(** The day offsets do not depend on where the series sits in the
    calendar. *)
Lemma days_later (k : Z) (df : list weather_row) :
  days (later k df) = days df.
Proof.
  unfold days. rewrite map_date_later, Series_min_later.
  destruct df as [| r df]; [reflexivity |].
  cbn [Series_min map fmap option_fmap option_map default from_option id].
  unfold later. rewrite map_map. cbn [map date]. f_equal; [lia |].
  apply map_ext. intros r'. cbn [date]. lia.
Qed.

Lemma fitted_model_later (k : Z) (df : list weather_row) :
  fitted_model (later k df) = fitted_model df.
Proof. unfold fitted_model. now rewrite days_later, map_avg_later. Qed.

Lemma later_future_rows (k : Z) (dates : list Z) (temps : list Q) :
  later_future k
    (map (fun '(d, t) =>
            {| future_date := d; predicted_avg_temperature := t |})
         (combine dates temps))
  = map (fun '(d, t) =>
           {| future_date := d; predicted_avg_temperature := t |})
        (combine (map (fun d => (d + k)%Z) dates) temps).
Proof.
  unfold later_future. revert temps.
  induction dates as [| d dates IH]; intros [| t temps]; try reflexivity.
  cbn [combine map]. f_equal. apply IH.
Qed.

(** X14.  Moving every date of the input by [k] days moves every
    projected date by [k] days and leaves the projected temperatures
    unchanged; an empty frame raises either way. *)
Theorem projection_follows_the_calendar (k : Z) (df : list weather_row) :
  predict_future_temperatures (later k df) =
    match predict_future_temperatures df with
    | Ok future_df => Ok (later_future k future_df)
    | Raise e => Raise e
    end.
Proof.
  unfold predict_future_temperatures.
  rewrite fitted_model_later, days_later.
  destruct (fitted_model df) as [model | e] eqn:Hfit; [| reflexivity].
  rewrite !bind_Ok. f_equal.
  rewrite later_future_rows. do 2 f_equal.
  rewrite map_date_later, Series_max_later, map_map.
  destruct df as [| r df]; [discriminate Hfit |].
  cbn [Series_max map fmap option_fmap option_map default from_option id].
  apply map_ext. intros i. lia.
Qed.

End CalendarShift.

(** ** The data path of [main] in Most_Definitly_Not_My_Crop.py *)

Section WeatherMain.
Local Open Scope Q_scope.
Import MostDefinitlyNotMyCropMain Pandas.

Lemma filter_nil_Forall {A : Type} (p : A -> bool) (l : list A) :
  List.filter p l = [] -> Forall (fun a => p a = false) l.
Proof.
  induction l as [| a l IH]; [constructor |].
  cbn [List.filter]. destruct (p a) eqn:E; [discriminate |].
  intros H. constructor; [exact E | exact (IH H)].
Qed.

Lemma filter_by_date_dates (df : list weather_row) (s e : datetime) :
  map date (filter_by_date df s e)
  = List.filter (in_range s e) (map date df).
Proof.
  unfold filter_by_date.
  induction df as [| r df IH]; [reflexivity |].
  cbn [map List.filter]. destruct (in_range s e (date r)); cbn [map];
    now rewrite IH.
Qed.

Lemma process_weather_data_dates
    (dates : list datetime) (max_temps min_temps rain : list Q)
    (df : list weather_row) :
  process_weather_data dates max_temps min_temps rain = Ok df ->
  map date df = dates.
Proof.
  intros Hdf.
  destruct (Nat.eq_dec (length max_temps) (length dates)) as [H1 | H1];
    [destruct (Nat.eq_dec (length min_temps) (length dates)) as [H2 | H2];
     [destruct (Nat.eq_dec (length rain) (length dates)) as [H3 | H3] |] |].
  - destruct (process_weather_data_Ok _ _ _ _ H1 H2 H3)
      as (df' & Hdf' & E & _).
    congruence.
  - unfold process_weather_data in Hdf.
    rewrite (proj2 (Nat.eqb_neq _ _) H3), !andb_false_r in Hdf.
    discriminate.
  - unfold process_weather_data in Hdf.
    rewrite (proj2 (Nat.eqb_neq _ _) H2), andb_false_r in Hdf.
    discriminate.
  - unfold process_weather_data in Hdf.
    rewrite (proj2 (Nat.eqb_neq _ _) H1) in Hdf. discriminate.
Qed.

Lemma predict_future_temperatures_length
    (df : list weather_row) (future_df : list future_row) :
  predict_future_temperatures df = Ok future_df ->
  length future_df = 30%nat.
Proof.
  intros Hp.
  destruct (fitted_model df) as [model | e] eqn:Hfit.
  - destruct (predict_future_temperatures_lookup df model 0 Hfit)
      as (future_df' & Hp' & Hlen & _); [lia |].
    congruence.
  - unfold predict_future_temperatures in Hp. rewrite Hfit in Hp.
    discriminate.
Qed.

(** X15.  What [main] puts on the page, on arrays with at least one date,
    whenever it gets that far.  The "no data" warning is shown only when no
    date lies in the selected range, and the dashboard only when some date
    does; the dashboard has 30 projected rows, a crop-health score in
    [[0,100]], and one health value in [[0,100]] for each date in the
    range. *)
Theorem main_page_contents
    (data : daily_arrays) (start_date end_date : datetime) (p : page) :
  time data <> [] ->
  main (Some data) start_date end_date = Ok p ->
  match p with
  | No_data_for_the_range =>
      Forall (fun d => in_range start_date end_date d = false) (time data)
  | Dashboard d =>
      List.filter (in_range start_date end_date) (time data) <> [] /\
      length (future_temps_df d) = 30%nat /\
      0 <= rice_crop_health d <= 100 /\
      Forall (fun v => 0 <= v <= 100) (health_over_time d) /\
      length (health_over_time d)
      = length (List.filter (in_range start_date end_date) (time data))
  | Nothing_shown => False
  end.
Proof.
  intros _ Hmain. unfold main in Hmain.
  destruct (process_weather_data _ _ _ _) as [df | e] eqn:Hdf;
    [| discriminate].
  rewrite bind_Ok in Hmain.
  pose proof (process_weather_data_dates _ _ _ _ _ Hdf) as Hdates.
  pose proof (filter_by_date_dates df start_date end_date) as Hf.
  rewrite Hdates in Hf.
  destruct (filter_by_date df start_date end_date) as [| r0 filtered] eqn:E.
  - apply Ok_inj in Hmain. subst p. apply filter_nil_Forall.
    now rewrite <- Hf.
  - destruct (predict_future_temperatures df) as [future_df | e] eqn:Hp;
      [| discriminate].
    rewrite bind_Ok in Hmain. apply Ok_inj in Hmain. subst p.
    cbn [future_temps_df rice_crop_health health_over_time].
    split; [rewrite <- Hf; discriminate |].
    split; [exact (predict_future_temperatures_length _ _ Hp) |].
    split; [apply analyze_rice_crop_health_bounds |]. split.
    + rewrite map_map. apply Forall_forall. intros v Hv.
      apply list_elem_of_In, in_map_iff in Hv as (r & <- & _).
      apply analyze_rice_crop_health_bounds.
    + now rewrite <- Hf, !length_map.
Qed.

(** X16.  The projected temperatures shown by [main] do not depend on the
    selected date range: they are computed from the whole frame. *)
Theorem main_projection_ignores_range
    (data : daily_arrays) (s1 e1 s2 e2 : datetime) (d1 d2 : dashboard) :
  main (Some data) s1 e1 = Ok (Dashboard d1) ->
  main (Some data) s2 e2 = Ok (Dashboard d2) ->
  future_temps_df d1 = future_temps_df d2.
Proof.
  unfold main.
  destruct (process_weather_data _ _ _ _) as [df | e]; [| discriminate].
  rewrite !bind_Ok.
  destruct (filter_by_date df s1 e1); [discriminate |].
  destruct (filter_by_date df s2 e2); [discriminate |].
  destruct (predict_future_temperatures df) as [future_df | e];
    [| discriminate].
  rewrite !bind_Ok. intros [= <-] [= <-]. reflexivity.
Qed.

End WeatherMain.

(** ** [analyze_crop_impact] against Policy A *)

Section CropImpact.
Local Open Scope Q_scope.

Lemma Qle_bool_false (x y : Q) : Qle_bool x y = false <-> y < x.
Proof.
  rewrite <- (Qltb_true y x). unfold Qltb.
  destruct (Qle_bool x y); cbn; split; congruence.
Qed.

(** X18.  [analyze_crop_impact] reports both "Optimal rainfall" and
    "Optimal temperature" exactly when the rainfall is in [[50, 150]] and
    the temperature in [[20, 30]]; for such readings the Policy A score of
    the other script is at least 67. *)
Theorem optimal_report_iff_in_ranges (avg_temp total_rainfall : Q) :
  (NotMyApp.analyze_crop_impact avg_temp total_rainfall
   = String.append "Rainfall impact: Optimal rainfall for most crops."
       (String.append NotMyApp.newline
          "Temperature impact: Optimal temperature for growth.")
   <-> 50 <= total_rainfall <= 150 /\ 20 <= avg_temp <= 30) /\
  (50 <= total_rainfall <= 150 -> 20 <= avg_temp <= 30 ->
   67 <= analyze_rice_crop_health avg_temp total_rainfall).
Proof.
  split.
  - unfold NotMyApp.analyze_crop_impact.
    destruct (Qltb total_rainfall 50) eqn:R1;
      destruct (Qle_bool 50 total_rainfall) eqn:R2;
      destruct (Qle_bool total_rainfall 150) eqn:R3;
      destruct (Qltb avg_temp 20) eqn:T1;
      destruct (Qle_bool 20 avg_temp) eqn:T2;
      destruct (Qle_bool avg_temp 30) eqn:T3;
      cbn [andb];
      try apply Qltb_true in R1; try apply Qltb_false in R1;
      try apply Qle_bool_iff in R2; try apply Qle_bool_false in R2;
      try apply Qle_bool_iff in R3; try apply Qle_bool_false in R3;
      try apply Qltb_true in T1; try apply Qltb_false in T1;
      try apply Qle_bool_iff in T2; try apply Qle_bool_false in T2;
      try apply Qle_bool_iff in T3; try apply Qle_bool_false in T3;
      (split; [intros H; try (vm_compute in H; discriminate H);
               repeat split; assumption
              | intros [[? ?] [? ?]]; try reflexivity; exfalso; lra]).
  - intros [Hr1 Hr2] [Ht1 Ht2].
    unfold analyze_rice_crop_health, temp_score, rain_score.
    assert (Ha : Qabs (avg_temp - 25) <= 5)
      by (apply Qabs_case; intros; lra).
    assert (Hb : Qabs (total_rainfall - 125) <= 75)
      by (apply Qabs_case; intros; lra).
    pose proof (Q.le_max_r 0 (100 - Qabs (avg_temp - 25) * 3)).
    pose proof (Q.le_max_r 0 (100 - Qabs (total_rainfall - 125) * 0.8)).
    lra.
Qed.

End CropImpact.

(** ** The data path of [main] in No_Name.py *)

Section NasaMain.
Local Open Scope Q_scope.

Lemma daily_record_numeric (d : datetime) (values : gmap string json_value)
    (column : string) :
  has_all_values values = true ->
  In column parameter_columns ->
  exists q, daily_record d values !! column = Some (CNum q).
Proof.
  intros Hall Hc. rewrite has_all_values_true in Hall.
  assert (Hget : forall key, In key parameters ->
                 exists q, get values key = CNum q).
  { intros key Hk. destruct (get_cases values key) as [E | E]; [| exact E].
    specialize (Hall key Hk). rewrite E in Hall. discriminate Hall. }
  simpl in Hc. destruct Hc as [<- | [<- | [<- | [<- | []]]]].
  - destruct (Hget "T2M"%string) as [q E]; [simpl; tauto |].
    exists q. rewrite <- E. reflexivity.
  - destruct (Hget "RH2M"%string) as [q E]; [simpl; tauto |].
    exists q. rewrite <- E. reflexivity.
  - destruct (Hget "PRECTOTCORR"%string) as [q E]; [simpl; tauto |].
    exists q. rewrite <- E. reflexivity.
  - destruct (Hget "ALLSKY_SFC_SW_DWN"%string) as [q E]; [simpl; tauto |].
    exists q. rewrite <- E. reflexivity.
Qed.

(** A row of the normaliser gets a score in [[0,100]] and no error. *)
Lemma normalised_row_scored
    (strptime : string -> option datetime) (reply : http_reply)
    (log : list st_call) (df : list (gmap string cell)) :
  fetch_nasa_power_data strptime reply = (log, Some df) ->
  Forall (fun row => exists v,
            calculate_rice_crop_health_score row = ([], Some v) /\
            0 <= v <= 100) df.
Proof.
  intros Hfetch. apply List.Forall_forall. intros row Hin.
  destruct (fetch_Some_rows _ _ _ _ _ Hfetch Hin) as (d & values & -> & Hall).
  destruct (daily_record_numeric d values "temperature" Hall)
    as [t Ht]; [simpl; tauto |].
  destruct (daily_record_numeric d values "humidity" Hall)
    as [h Hh]; [simpl; tauto |].
  destruct (daily_record_numeric d values "precipitation" Hall)
    as [p Hp]; [simpl; tauto |].
  destruct (daily_record_numeric d values "solar_radiation" Hall)
    as [s Hs]; [simpl; tauto |].
  destruct (crop_health_score_Ok _ _ _ _ _ Ht Hh Hp Hs)
    as (st & sh & sp & ss & Et & Eh & Ep & Es & E); try discriminate.
  eexists. split; [apply calculate_rice_crop_health_score_Ok, E |].
  apply weighted_sum_bounds; eapply parameter_score_bounds; eassumption.
Qed.

(** The scoring pass of [main] over rows that all get a score. *)
Lemma scoring_pass (df : list (gmap string cell)) :
  Forall (fun row => exists v,
            calculate_rice_crop_health_score row = ([], Some v) /\
            0 <= v <= 100) df ->
  let applied := map calculate_rice_crop_health_score df in
  let scored :=
    map (fun '(row, (_, score)) =>
           <["crop_health_score" := from_option CNum CNone score]> row)
        (combine df applied) in
  concat (map fst applied) = [] /\
  filter (fun row =>
            from_option isna true (row !! "crop_health_score") = false)
         scored = scored /\
  Forall2 (fun row srow => exists v,
             0 <= v <= 100 /\
             calculate_rice_crop_health_score row = ([], Some v) /\
             srow = <["crop_health_score" := CNum v]> row) df scored.
Proof.
  induction 1 as [| row df (v & Hv & Bv) _ (IH1 & IH2 & IH3)];
    [repeat split; constructor |].
  cbn [map combine concat fst]. rewrite Hv. cbn [fst app from_option].
  split; [exact IH1 |]. split.
  - rewrite filter_cons_True; [now rewrite IH2 |].
    now rewrite lookup_insert_eq.
  - constructor; [eauto | exact IH3].
Qed.

Lemma fetch_frame_nonempty
    (strptime : string -> option datetime) (reply : http_reply)
    (log : list st_call) (df : list (gmap string cell)) :
  fetch_nasa_power_data strptime reply = (log, Some df) -> df <> [].
Proof.
  unfold fetch_nasa_power_data.
  destruct reply as [| status_code [data |]]; try discriminate;
    destruct (negb _); try discriminate.
  destruct (properties data ≫= parameter) as [items |]; [| discriminate].
  destruct (process_items strptime items) as [log' rows].
  destruct (dropna rows); cbn [empty]; [discriminate |].
  intros [= _ <-]. discriminate.
Qed.

Lemma main_scored_frame
    (strptime : string -> option datetime) (reply : http_reply)
    (log : list st_call) (df : list (gmap string cell)) :
  fetch_nasa_power_data strptime reply = (log, Some df) ->
  exists scored,
    main strptime reply = (log, Some scored) /\
    Forall2 (fun row srow => exists v,
               0 <= v <= 100 /\
               calculate_rice_crop_health_score row = ([], Some v) /\
               srow = <["crop_health_score" := CNum v]> row) df scored.
Proof.
  intros Hfetch.
  pose proof (normalised_row_scored _ _ _ _ Hfetch) as Hrows.
  pose proof (fetch_frame_nonempty _ _ _ _ Hfetch) as Hne.
  destruct (scoring_pass df Hrows) as (H1 & H2 & H3).
  cbv zeta in H1, H2, H3.
  unfold main. rewrite Hfetch.
  destruct df as [| row0 df0] eqn:Edf; [contradiction |].
  cbn [empty negb]. rewrite <- Edf in *.
  rewrite H1, H2, app_nil_r.
  destruct (map _ (combine df _)) as [| s0 scored] eqn:Es.
  - rewrite Edf in H3. inversion H3.
  - cbn [empty]. eexists. split; [reflexivity | exact H3].
Qed.

(** X19.  Whenever the normaliser returns a frame, [main] scores every
    row of it: the scored frame has the same rows in the same order, each
    with a [crop_health_score] in [[0,100]]; no row is dropped, no further
    [st.error] is made, and the "No valid crop health scores" branch is not
    taken. *)
Theorem main_scores_every_row
    (strptime : string -> option datetime) (reply : http_reply)
    (log : list st_call) (df : list (gmap string cell)) :
  fetch_nasa_power_data strptime reply = (log, Some df) ->
  exists scored,
    main strptime reply = (log, Some scored) /\
    Forall2 (fun row srow => exists v,
               0 <= v <= 100 /\
               calculate_rice_crop_health_score row = ([], Some v) /\
               srow = <["crop_health_score" := CNum v]> row) df scored.
Proof. apply main_scored_frame. Qed.

(** X20.  [main] stops without a scored frame exactly when the normaliser
    returned [None]. *)
Theorem main_None_iff_fetch_None
    (strptime : string -> option datetime) (reply : http_reply) :
  snd (main strptime reply) = None <->
  snd (fetch_nasa_power_data strptime reply) = None.
Proof.
  destruct (fetch_nasa_power_data strptime reply) as [log [df |]] eqn:E.
  - destruct (main_scored_frame _ _ _ _ E) as (scored & Hm & _).
    rewrite Hm. cbn [snd]. split; discriminate.
  - rewrite (main_fetch_None _ _ _ E). cbn [snd]. tauto.
Qed.

End NasaMain.

(** ** Instances of the further properties *)

Section MoreInstances.
Local Open Scope Q_scope.
Import Samples MoreSamples MostDefinitlyNotMyCropMain LinearRegression.

Lemma fetch_frame_never_empty_witness :
  [daily_record 738886%Z complete_values] <> [] /\
  exists items,
    valid_reply by_date_items = valid_reply items /\
    existsb (usable Strptime.Ymd) items = true.
Proof.
  apply (fetch_frame_never_empty Strptime.Ymd (valid_reply by_date_items)
           [write Requesting_URL;
            write (Debug_Available_parameters
                     ["20240101"%string; "20240102"%string])]).
  reflexivity.
Defined.

Lemma fetch_failure_is_reported_witness :
  exists log m,
    fst (fetch_nasa_power_data Strptime.Ymd (valid_reply by_parameter_items))
    = log ++ [error m].
Proof.
  apply (fetch_failure_is_reported Strptime.Ymd
           (valid_reply by_parameter_items)).
  reflexivity.
Defined.

Lemma policy_A_monotone_witness :
  analyze_rice_crop_health 31 40 <= analyze_rice_crop_health 27 100.
Proof.
  apply (policy_A_monotone 27 100 31 40); vm_compute; discriminate.
Defined.

Lemma projection_steps_by_slope_witness :
  exists future_df,
    predict_future_temperatures three_linear_days = Ok future_df /\
    forall i r r',
      future_df !! i = Some r -> future_df !! S i = Some r' ->
      predicted_avg_temperature r'
      == predicted_avg_temperature r + coef_ three_linear_days_model.
Proof.
  apply (projection_steps_by_slope three_linear_days three_linear_days_model).
  reflexivity.
Defined.

Lemma constant_series_projects_constant_witness :
  exists future_df,
    predict_future_temperatures two_even_days = Ok future_df /\
    length future_df = 30%nat /\
    forall i row, future_df !! i = Some row ->
      predicted_avg_temperature row == 10.
Proof.
  apply (constant_series_projects_constant two_even_days 10).
  - discriminate.
  - intros r [<- | [<- | []]]; reflexivity.
Defined.

Lemma main_page_contents_witness :
  List.filter (Pandas.in_range 738886%Z 738887%Z) (time three_days) <> [] /\
  length (future_temps_df first_two_days) = 30%nat /\
  0 <= rice_crop_health first_two_days <= 100 /\
  Forall (fun v => 0 <= v <= 100) (health_over_time first_two_days) /\
  length (health_over_time first_two_days)
  = length (List.filter (Pandas.in_range 738886%Z 738887%Z)
                        (time three_days)).
Proof.
  apply (main_page_contents three_days 738886%Z 738887%Z
           (Dashboard first_two_days)).
  - discriminate.
  - vm_compute. reflexivity.
Defined.

Lemma main_projection_ignores_range_witness :
  future_temps_df first_two_days = future_temps_df last_day.
Proof.
  apply (main_projection_ignores_range three_days
           738886%Z 738887%Z 738888%Z 738888%Z);
    vm_compute; reflexivity.
Defined.

Lemma main_scores_every_row_witness :
  exists scored,
    NoName.main Strptime.Ymd (valid_reply by_date_items)
    = ([write Requesting_URL;
        write (Debug_Available_parameters
                 ["20240101"%string; "20240102"%string])],
       Some scored) /\
    Forall2 (fun row srow => exists v,
               0 <= v <= 100 /\
               calculate_rice_crop_health_score row = ([], Some v) /\
               srow = <["crop_health_score" := CNum v]> row)
            [daily_record 738886%Z complete_values] scored.
Proof.
  apply (main_scores_every_row Strptime.Ymd (valid_reply by_date_items)).
  reflexivity.
Defined.

End MoreInstances.
